(** * crewai.telemetry.telemetry: the Telemetry class

    A shallow embedding of [src/crewai/telemetry/telemetry.py].  The class
    talks to an OpenTelemetry backend; every call it makes on that backend is
    an entry of a trace kept in the world, together with the outcome of the
    call (it returned, or it raised).  Which calls raise is decided by the
    environment, so that the handlers of the class ([except Exception],
    [except BaseException]) are exercised on every failure pattern. *)

From Stdlib Require Import String List Bool Arith ZArith Lia DecimalString.
Import ListNotations.
Open Scope string_scope.
Set Warnings "-register-all".

(** ** Python values and exceptions *)

(** The exception classes the module can meet.  The first four are
    subclasses of [Exception]; the others derive from [BaseException] only
    ([asyncio.CancelledError] does since Python 3.8). *)
Inductive exn : Type :=
| TypeError
| ValueError
| AttributeError
| OtherException (name : string)
| SystemExit
| KeyboardInterrupt
| GeneratorExit
| CancelledError
| OtherBaseException (name : string).

(** [isinstance(e, Exception)] *)
Definition is_Exception (e : exn) : bool :=
  match e with
  | TypeError | ValueError | AttributeError | OtherException _ => true
  | _ => false
  end.

(** [isinstance(e, (SystemExit, KeyboardInterrupt, GeneratorExit,
    asyncio.CancelledError))] *)
Definition is_termination (e : exn) : bool :=
  match e with
  | SystemExit | KeyboardInterrupt | GeneratorExit | CancelledError => true
  | _ => false
  end.

(** Values of type [Any] that reach the module.  [PObj] stands for any
    object that is none of the others (it is truthy, has no [len] and is not
    JSON serializable). *)
Inductive pyval : Type :=
| PNone
| PBool (b : bool)
| PInt (z : Z)
| PStr (s : string)
| PList (l : list pyval)
| PDict (d : list (string * pyval))
| PObj (n : nat).

Definition dict := list (string * pyval).

(** Outcome of evaluating an expression: it raised, or it returned. *)
Inductive result (A : Type) : Type :=
| Raised (e : exn)
| Returned (a : A).
Arguments Raised {A} e.
Arguments Returned {A} a.

(** [d.get(k, default)] *)
Fixpoint dict_get_default (d : dict) (k : string) (default : pyval) : pyval :=
  match d with
  | [] => default
  | (k', v) :: d' => if String.eqb k k' then v else dict_get_default d' k default
  end.

(** [d.get(k)] *)
Definition dict_get (d : dict) (k : string) : pyval := dict_get_default d k PNone.

(** [d[k] = v] *)
Definition dict_set (d : dict) (k : string) (v : pyval) : dict :=
  (k, v) :: filter (fun kv => negb (String.eqb k (fst kv))) d.

(** Truth value of an object, as [if x:] tests it. *)
Definition truthy (v : pyval) : bool :=
  match v with
  | PNone => false
  | PBool b => b
  | PInt z => negb (Z.eqb z 0)
  | PStr s => negb (String.eqb s EmptyString)
  | PList l => match l with [] => false | _ => true end
  | PDict d => match d with [] => false | _ => true end
  | PObj _ => true
  end.

(** [len(x)] *)
Definition py_len (v : pyval) : result Z :=
  match v with
  | PStr s => Returned (Z.of_nat (String.length s))
  | PList l => Returned (Z.of_nat (List.length l))
  | PDict d => Returned (Z.of_nat (List.length d))
  | _ => Raised TypeError
  end.

(** [str(n)] for an [int] *)
Definition str_int (z : Z) : string := NilZero.string_of_int (Z.to_int z).

(** A [float]: no arithmetic is done on it, the module only calls [str] on
    it, so it is carried by that text. *)
Record pyfloat : Type := { float_str : string }.

(** ** The observed objects *)

(** [task.output] *)
Record TaskOutput : Type := {
  raw : string;
  raw_output : string
}.

(** The fields of [Task] the module reads.  [task_id] is a UUID, held by
    its canonical text, which is what [str(task.id)] gives. *)
Record Task : Type := {
  task_key : string;
  task_id : string;
  description : string;
  expected_output : string;
  output : option TaskOutput
}.

(** An object of type [Any] passed as [llm]: the module reads [llm.model]. *)
Record LLM : Type := { model : pyval }.

(** A value of type [Span | None]: a span of the backend, or [None]. *)
Definition span_ref := option nat.

(** The fields of [Crew] the module reads ([crew_key] and [crew_id] are
    [crew.key] and [crew.id], the latter a UUID held by its text). *)
Record Crew : Type := {
  crew_key : string;
  crew_id : string;
  share_crew : bool;
  tasks : list Task;
  _execution_span : span_ref
}.

(** ** The tracing backend *)

(** The calls the module makes on OpenTelemetry. *)
Inductive call : Type :=
| MkResource (service_name : string)
| MkTracerProvider
| MkOTLPSpanExporter (endpoint : string) (timeout : Z)
| MkBatchSpanProcessor
| AddSpanProcessor
| SetTracerProvider
| GetTracer (name : string)
| StartSpan (sp : nat) (name : string)
| SetAttribute (sp : nat) (key : string) (value : pyval)
| SetStatusOK (sp : nat)
| EndSpan (sp : nat).

(** A call and its outcome: [None] when it returned, [Some e] when it
    raised [e]. *)
Abbreviation event := (call * option exn)%type.

(** What the module takes from its surroundings: which backend calls raise
    (by position in the trace), and the library functions it calls. *)
Record Env : Type := {
  fails : nat -> call -> option exn;
  json_dumps : pyval -> result string;
  crewai_dist_version : result string;
  python_version : string;
  platform_platform : string;
  platform_release : string;
  platform_system : string;
  platform_version : string;
  cpu_count : option Z
}.

(** The instance attributes of [Telemetry]. *)
Record Telemetry : Type := {
  ready : bool;
  trace_set : bool
}.

Record World : Type := {
  self : Telemetry;
  trace : list event
}.

Definition push (w : World) (ev : event) : World :=
  {| self := self w; trace := trace w ++ [ev] |}.

(** ** The monad of the methods: state and exceptions *)

Definition M (A : Type) : Type := World -> result A * World.

Definition ret {A} (a : A) : M A := fun w => (Returned a, w).

Definition raise {A} (e : exn) : M A := fun w => (Raised e, w).

Definition bind {A B} (m : M A) (k : A -> M B) : M B :=
  fun w =>
    match m w with
    | (Raised e, w') => (Raised e, w')
    | (Returned a, w') => k a w'
    end.

Definition lift {A} (r : result A) : M A := fun w => (r, w).

Declare Scope py_scope.
Delimit Scope py_scope with py.
Notation "x <- m ;; k" := (bind m (fun x => k))
  (at level 61, m at next level, right associativity) : py_scope.
Notation "m ;; k" := (bind m (fun _ => k))
  (at level 61, right associativity) : py_scope.
Open Scope py_scope.

(** [try: body  except Exception: handler] *)
Definition try_except {A} (body handler : M A) : M A :=
  fun w =>
    match body w with
    | (Raised e, w') => if is_Exception e then handler w' else (Raised e, w')
    | r => r
    end.

(** [try: body  except BaseException as e: handler(e)] *)
Definition try_except_base {A} (body : M A) (handler : exn -> M A) : M A :=
  fun w =>
    match body w with
    | (Raised e, w') => handler e w'
    | r => r
    end.

Definition self_ready : M bool := fun w => (Returned (ready (self w)), w).

Definition self_trace_set : M bool := fun w => (Returned (trace_set (self w)), w).

Definition set_ready (b : bool) : M unit :=
  fun w => (Returned tt,
            {| self := {| ready := b; trace_set := trace_set (self w) |};
               trace := trace w |}).

Definition set_trace_set (b : bool) : M unit :=
  fun w => (Returned tt,
            {| self := {| ready := ready (self w); trace_set := b |};
               trace := trace w |}).

(** ** The methods of [Telemetry] *)

Section Methods.

Variable env : Env.

(** One call on the backend: it raises what the environment says, or
    returns; either way the trace records it. *)
Definition backend (c : call) : M unit :=
  fun w =>
    match fails env (List.length (trace w)) c with
    | Some e => (Raised e, push w (c, Some e))
    | None => (Returned tt, push w (c, None))
    end.

(** [trace.get_tracer(name)] *)
Definition get_tracer (name : string) : M unit := backend (GetTracer name).

(** [tracer.start_span(name)]: the new span is numbered by its position in
    the trace. *)
Definition start_span (name : string) : M span_ref :=
  fun w =>
    let sp := List.length (trace w) in
    (backend (StartSpan sp name) ;; ret (Some sp)) w.

(** [span.set_attribute(key, value)]; on [None] the attribute lookup raises
    before any call is made. *)
Definition set_attribute (span : span_ref) (key : string) (value : pyval) : M unit :=
  match span with
  | Some sp => backend (SetAttribute sp key value)
  | None => raise AttributeError
  end.

(** [span.set_status(Status(StatusCode.OK))] *)
Definition set_status_ok (span : span_ref) : M unit :=
  match span with
  | Some sp => backend (SetStatusOK sp)
  | None => raise AttributeError
  end.

(** [span.end()] *)
Definition span_end (span : span_ref) : M unit :=
  match span with
  | Some sp => backend (EndSpan sp)
  | None => raise AttributeError
  end.

(** [pkg_resources.get_distribution("crewai").version] *)
Definition dist_version : M pyval :=
  v <- lift (crewai_dist_version env) ;; ret (PStr v).

(** [json.dumps(x)] *)
Definition dumps (x : pyval) : M pyval :=
  s <- lift (json_dumps env x) ;; ret (PStr s).

(** [json.dumps(inputs) if inputs else None] *)
Definition dumps_inputs (inputs : option dict) : M pyval :=
  match inputs with
  | Some d => if truthy (PDict d) then dumps (PDict d) else ret PNone
  | None => ret PNone
  end.

(** The body of the [try] of [__init__]. *)
Definition init_pipeline : M unit :=
  let telemetry_endpoint := "https://telemetry.crewai.com:4319" in
  backend (MkResource "crewAI-telemetry") ;;
  backend MkTracerProvider ;;
  backend (MkOTLPSpanExporter (telemetry_endpoint ++ "/v1/traces") 30) ;;
  backend MkBatchSpanProcessor ;;
  backend AddSpanProcessor ;;
  set_ready true.

(** The [except BaseException as e] clause of [__init__]. *)
Definition init_on_failure (e : exn) : M unit :=
  if is_termination e then raise e
  else set_ready false.

Definition __init__ : M unit :=
  set_ready false ;;
  set_trace_set false ;;
  try_except_base init_pipeline init_on_failure.

Definition set_tracer : M unit :=
  rdy <- self_ready ;;
  ts <- self_trace_set ;;
  if rdy && negb ts then
    try_except
      (backend SetTracerProvider ;;
       set_trace_set true)
      (set_ready false ;;
       set_trace_set false)
  else ret tt.

Definition _add_attribute (span : span_ref) (key : string) (value : pyval) : M unit :=
  try_except (set_attribute span key value) (ret tt).

Definition crew_creation (crew_data : dict) (inputs : option dict) : M span_ref :=
  rdy <- self_ready ;;
  if rdy then
    try_except
      (get_tracer "crewai.telemetry" ;;
       span <- start_span "Crew Created" ;;
       _add_attribute span "crewai_version" (dict_get crew_data "crewai_version") ;;
       _add_attribute span "python_version" (PStr (python_version env)) ;;
       _add_attribute span "crew_key" (dict_get crew_data "key") ;;
       _add_attribute span "crew_id" (dict_get crew_data "id") ;;
       _add_attribute span "crew_process" (dict_get crew_data "process") ;;
       _add_attribute span "crew_memory" (dict_get crew_data "memory") ;;
       n_tasks <- lift (py_len (dict_get_default crew_data "tasks" (PList []))) ;;
       _add_attribute span "crew_number_of_tasks" (PInt n_tasks) ;;
       n_agents <- lift (py_len (dict_get_default crew_data "agents" (PList []))) ;;
       _add_attribute span "crew_number_of_agents" (PInt n_agents) ;;
       (if truthy (dict_get crew_data "share_crew") then
          agents <- dumps (dict_get_default crew_data "agents" (PList [])) ;;
          _add_attribute span "crew_agents" agents ;;
          tasks <- dumps (dict_get_default crew_data "tasks" (PList [])) ;;
          _add_attribute span "crew_tasks" tasks ;;
          _add_attribute span "platform" (PStr (platform_platform env)) ;;
          _add_attribute span "platform_release" (PStr (platform_release env)) ;;
          _add_attribute span "platform_system" (PStr (platform_system env)) ;;
          _add_attribute span "platform_version" (PStr (platform_version env)) ;;
          _add_attribute span "cpus"
            (match cpu_count env with Some n => PInt n | None => PNone end) ;;
          crew_inputs <- dumps_inputs inputs ;;
          _add_attribute span "crew_inputs" crew_inputs
        else ret tt) ;;
       set_status_ok span ;;
       span_end span ;;
       ret None)
      (ret None)
  else ret None.

Definition task_started (crew : Crew) (task : Task) : M span_ref :=
  rdy <- self_ready ;;
  if rdy then
    try_except
      (get_tracer "crewai.telemetry" ;;
       created_span <- start_span "Task Created" ;;
       _add_attribute created_span "crew_key" (PStr (crew_key crew)) ;;
       _add_attribute created_span "crew_id" (PStr (crew_id crew)) ;;
       _add_attribute created_span "task_key" (PStr (task_key task)) ;;
       _add_attribute created_span "task_id" (PStr (task_id task)) ;;
       (if share_crew crew then
          _add_attribute created_span "formatted_description" (PStr (description task)) ;;
          _add_attribute created_span "formatted_expected_output"
            (PStr (expected_output task))
        else ret tt) ;;
       set_status_ok created_span ;;
       span_end created_span ;;
       span <- start_span "Task Execution" ;;
       _add_attribute span "crew_key" (PStr (crew_key crew)) ;;
       _add_attribute span "crew_id" (PStr (crew_id crew)) ;;
       _add_attribute span "task_key" (PStr (task_key task)) ;;
       _add_attribute span "task_id" (PStr (task_id task)) ;;
       (if share_crew crew then
          _add_attribute span "formatted_description" (PStr (description task)) ;;
          _add_attribute span "formatted_expected_output" (PStr (expected_output task))
        else ret tt) ;;
       ret span)
      (ret None)
  else ret None.

Definition task_ended (span : span_ref) (task : Task) (crew : Crew) : M span_ref :=
  rdy <- self_ready ;;
  if rdy then
    try_except
      ((if share_crew crew then
          _add_attribute span "task_output"
            (PStr (match output task with Some o => raw o | None => EmptyString end))
        else ret tt) ;;
       set_status_ok span ;;
       span_end span ;;
       ret None)
      (ret None)
  else ret None.

Definition tool_repeated_usage (llm : option LLM) (tool_name : string) (attempts : Z)
  : M span_ref :=
  rdy <- self_ready ;;
  if rdy then
    try_except
      (get_tracer "crewai.telemetry" ;;
       span <- start_span "Tool Repeated Usage" ;;
       version <- dist_version ;;
       _add_attribute span "crewai_version" version ;;
       _add_attribute span "tool_name" (PStr tool_name) ;;
       _add_attribute span "attempts" (PInt attempts) ;;
       match llm with
       | Some l => _add_attribute span "llm" (model l)
       | None => ret tt
       end ;;
       set_status_ok span ;;
       span_end span ;;
       ret None)
      (ret None)
  else ret None.

Definition tool_usage (llm : option LLM) (tool_name : string) (attempts : Z)
  : M span_ref :=
  rdy <- self_ready ;;
  if rdy then
    try_except
      (get_tracer "crewai.telemetry" ;;
       span <- start_span "Tool Usage" ;;
       version <- dist_version ;;
       _add_attribute span "crewai_version" version ;;
       _add_attribute span "tool_name" (PStr tool_name) ;;
       _add_attribute span "attempts" (PInt attempts) ;;
       match llm with
       | Some l => _add_attribute span "llm" (model l)
       | None => ret tt
       end ;;
       set_status_ok span ;;
       span_end span ;;
       ret None)
      (ret None)
  else ret None.

Definition tool_usage_error (llm : option LLM) : M span_ref :=
  rdy <- self_ready ;;
  if rdy then
    try_except
      (get_tracer "crewai.telemetry" ;;
       span <- start_span "Tool Usage Error" ;;
       version <- dist_version ;;
       _add_attribute span "crewai_version" version ;;
       match llm with
       | Some l => _add_attribute span "llm" (model l)
       | None => ret tt
       end ;;
       set_status_ok span ;;
       span_end span ;;
       ret None)
      (ret None)
  else ret None.

Definition individual_test_result_span
  (crew : Crew) (quality : pyfloat) (exec_time : Z) (model_name : string) : M span_ref :=
  rdy <- self_ready ;;
  if rdy then
    try_except
      (get_tracer "crewai.telemetry" ;;
       span <- start_span "Crew Individual Test Result" ;;
       version <- dist_version ;;
       _add_attribute span "crewai_version" version ;;
       _add_attribute span "crew_key" (PStr (crew_key crew)) ;;
       _add_attribute span "crew_id" (PStr (crew_id crew)) ;;
       _add_attribute span "quality" (PStr (float_str quality)) ;;
       _add_attribute span "exec_time" (PStr (str_int exec_time)) ;;
       _add_attribute span "model_name" (PStr model_name) ;;
       set_status_ok span ;;
       span_end span ;;
       ret None)
      (ret None)
  else ret None.

Definition test_execution_span
  (crew : Crew) (iterations : Z) (inputs : option dict) (model_name : string)
  : M span_ref :=
  rdy <- self_ready ;;
  if rdy then
    try_except
      (get_tracer "crewai.telemetry" ;;
       span <- start_span "Crew Test Execution" ;;
       version <- dist_version ;;
       _add_attribute span "crewai_version" version ;;
       _add_attribute span "crew_key" (PStr (crew_key crew)) ;;
       _add_attribute span "crew_id" (PStr (crew_id crew)) ;;
       _add_attribute span "iterations" (PStr (str_int iterations)) ;;
       _add_attribute span "model_name" (PStr model_name) ;;
       (if share_crew crew then
          v <- dumps_inputs inputs ;;
          _add_attribute span "inputs" v
        else ret tt) ;;
       set_status_ok span ;;
       span_end span ;;
       ret None)
      (ret None)
  else ret None.

Definition deploy_signup_error_span : M span_ref :=
  rdy <- self_ready ;;
  if rdy then
    try_except
      (get_tracer "crewai.telemetry" ;;
       span <- start_span "Deploy Signup Error" ;;
       set_status_ok span ;;
       span_end span ;;
       ret None)
      (ret None)
  else ret None.

Definition start_deployment_span (uuid : option string) : M span_ref :=
  rdy <- self_ready ;;
  if rdy then
    try_except
      (get_tracer "crewai.telemetry" ;;
       span <- start_span "Start Deployment" ;;
       match uuid with
       | Some u => if truthy (PStr u) then _add_attribute span "uuid" (PStr u) else ret tt
       | None => ret tt
       end ;;
       set_status_ok span ;;
       span_end span ;;
       ret None)
      (ret None)
  else ret None.

Definition create_crew_deployment_span : M span_ref :=
  rdy <- self_ready ;;
  if rdy then
    try_except
      (get_tracer "crewai.telemetry" ;;
       span <- start_span "Create Crew Deployment" ;;
       set_status_ok span ;;
       span_end span ;;
       ret None)
      (ret None)
  else ret None.

Definition get_crew_logs_span (uuid : option string) (log_type : string) : M span_ref :=
  rdy <- self_ready ;;
  if rdy then
    try_except
      (get_tracer "crewai.telemetry" ;;
       span <- start_span "Get Crew Logs" ;;
       _add_attribute span "log_type" (PStr log_type) ;;
       match uuid with
       | Some u => if truthy (PStr u) then _add_attribute span "uuid" (PStr u) else ret tt
       | None => ret tt
       end ;;
       set_status_ok span ;;
       span_end span ;;
       ret None)
      (ret None)
  else ret None.

Definition remove_crew_span (uuid : option string) : M span_ref :=
  rdy <- self_ready ;;
  if rdy then
    try_except
      (get_tracer "crewai.telemetry" ;;
       span <- start_span "Remove Crew" ;;
       match uuid with
       | Some u => if truthy (PStr u) then _add_attribute span "uuid" (PStr u) else ret tt
       | None => ret tt
       end ;;
       set_status_ok span ;;
       span_end span ;;
       ret None)
      (ret None)
  else ret None.

Definition crew_execution_span (crew_data : dict) (inputs : option dict) : M span_ref :=
  rdy <- self_ready ;;
  if rdy && truthy (dict_get crew_data "share_crew") then
    try_except
      (get_tracer "crewai.telemetry" ;;
       span <- start_span "Crew Execution" ;;
       version <- dist_version ;;
       _add_attribute span "crewai_version" version ;;
       _add_attribute span "crew_key" (dict_get crew_data "key") ;;
       _add_attribute span "crew_id" (dict_get crew_data "id") ;;
       crew_inputs <- dumps_inputs inputs ;;
       _add_attribute span "crew_inputs" crew_inputs ;;
       agents <- dumps (dict_get_default crew_data "agents" (PList [])) ;;
       _add_attribute span "crew_agents" agents ;;
       tasks <- dumps (dict_get_default crew_data "tasks" (PList [])) ;;
       _add_attribute span "crew_tasks" tasks ;;
       set_status_ok span ;;
       span_end span ;;
       ret span)
      (ret None)
  else ret None.

(** The list comprehension of [end_crew]: one dictionary per task;
    [task.output.raw_output] raises when [task.output] is [None]. *)
Fixpoint tasks_output (ts : list Task) : result (list pyval) :=
  match ts with
  | [] => Returned []
  | task :: ts' =>
      match output task with
      | None => Raised AttributeError
      | Some o =>
          match tasks_output ts' with
          | Raised e => Raised e
          | Returned l =>
              Returned (PDict [("id", PStr (task_id task));
                               ("description", PStr (description task));
                               ("output", PStr (raw_output o))] :: l)
          end
      end
  end.

Definition end_crew (crew : Crew) (final_string_output : pyval) : M span_ref :=
  rdy <- self_ready ;;
  if rdy && share_crew crew then
    try_except
      (version <- dist_version ;;
       _add_attribute (_execution_span crew) "crewai_version" version ;;
       _add_attribute (_execution_span crew) "crew_output" final_string_output ;;
       outputs <- lift (tasks_output (tasks crew)) ;;
       crew_tasks_output <- dumps (PList outputs) ;;
       _add_attribute (_execution_span crew) "crew_tasks_output" crew_tasks_output ;;
       set_status_ok (_execution_span crew) ;;
       span_end (_execution_span crew) ;;
       ret None)
      (ret None)
  else ret None.

Definition flow_creation_span (flow_name : string) : M span_ref :=
  rdy <- self_ready ;;
  if rdy then
    try_except
      (get_tracer "crewai.telemetry" ;;
       span <- start_span "Flow Creation" ;;
       _add_attribute span "flow_name" (PStr flow_name) ;;
       set_status_ok span ;;
       span_end span ;;
       ret None)
      (ret None)
  else ret None.

Definition flow_plotting_span (flow_name : string) (node_names : list string)
  : M span_ref :=
  rdy <- self_ready ;;
  if rdy then
    try_except
      (get_tracer "crewai.telemetry" ;;
       span <- start_span "Flow Plotting" ;;
       _add_attribute span "flow_name" (PStr flow_name) ;;
       names <- dumps (PList (map PStr node_names)) ;;
       _add_attribute span "node_names" names ;;
       set_status_ok span ;;
       span_end span ;;
       ret None)
      (ret None)
  else ret None.

Definition flow_execution_span (flow_name : string) (node_names : list string)
  : M span_ref :=
  rdy <- self_ready ;;
  if rdy then
    try_except
      (get_tracer "crewai.telemetry" ;;
       span <- start_span "Flow Execution" ;;
       _add_attribute span "flow_name" (PStr flow_name) ;;
       names <- dumps (PList (map PStr node_names)) ;;
       _add_attribute span "node_names" names ;;
       set_status_ok span ;;
       span_end span ;;
       ret None)
      (ret None)
  else ret None.

End Methods.

(** ** The public emission operations, as one type *)

Inductive emission : Type :=
| Crew_creation (crew_data : dict) (inputs : option dict)
| Task_started (crew : Crew) (task : Task)
| Task_ended (span : span_ref) (task : Task) (crew : Crew)
| Tool_repeated_usage (llm : option LLM) (tool_name : string) (attempts : Z)
| Tool_usage (llm : option LLM) (tool_name : string) (attempts : Z)
| Tool_usage_error (llm : option LLM)
| Individual_test_result_span (crew : Crew) (quality : pyfloat) (exec_time : Z)
    (model_name : string)
| Test_execution_span (crew : Crew) (iterations : Z) (inputs : option dict)
    (model_name : string)
| Deploy_signup_error_span
| Start_deployment_span (uuid : option string)
| Create_crew_deployment_span
| Get_crew_logs_span (uuid : option string) (log_type : string)
| Remove_crew_span (uuid : option string)
| Crew_execution_span (crew_data : dict) (inputs : option dict)
| End_crew (crew : Crew) (final_string_output : pyval)
| Flow_creation_span (flow_name : string)
| Flow_plotting_span (flow_name : string) (node_names : list string)
| Flow_execution_span (flow_name : string) (node_names : list string).

Definition emit (env : Env) (o : emission) : M span_ref :=
  match o with
  | Crew_creation d i => crew_creation env d i
  | Task_started c t => task_started env c t
  | Task_ended sp t c => task_ended env sp t c
  | Tool_repeated_usage l n a => tool_repeated_usage env l n a
  | Tool_usage l n a => tool_usage env l n a
  | Tool_usage_error l => tool_usage_error env l
  | Individual_test_result_span c q t m => individual_test_result_span env c q t m
  | Test_execution_span c n i m => test_execution_span env c n i m
  | Deploy_signup_error_span => deploy_signup_error_span env
  | Start_deployment_span u => start_deployment_span env u
  | Create_crew_deployment_span => create_crew_deployment_span env
  | Get_crew_logs_span u t => get_crew_logs_span env u t
  | Remove_crew_span u => remove_crew_span env u
  | Crew_execution_span d i => crew_execution_span env d i
  | End_crew c s => end_crew env c s
  | Flow_creation_span n => flow_creation_span env n
  | Flow_plotting_span n ns => flow_plotting_span env n ns
  | Flow_execution_span n ns => flow_execution_span env n ns
  end.

(** Any method a host may call once the object exists. *)
Inductive operation : Type :=
| Set_tracer
| Emit (o : emission).

Definition run (env : Env) (op : operation) : M span_ref :=
  match op with
  | Set_tracer => set_tracer env ;; ret None
  | Emit o => emit env o
  end.

(** A host calling operations one after the other, whatever each call
    returned or raised. *)
Fixpoint run_all (env : Env) (ops : list operation) (w : World) : World :=
  match ops with
  | [] => w
  | op :: ops' => run_all env ops' (snd (run env op w))
  end.

(** ** Reading a trace *)

(** The events a computation added to the trace of [w]. *)
Definition emitted {A} (m : M A) (w : World) : list event :=
  skipn (List.length (trace w)) (trace (snd (m w))).

(** The calls that returned. *)
Definition done (evs : list event) : list call :=
  map fst (filter (fun ev => match snd ev with None => true | Some _ => false end) evs).

Definition opened_spans (evs : list event) : list (nat * string) :=
  flat_map (fun c => match c with StartSpan sp n => [(sp, n)] | _ => [] end) (done evs).

(** The keys of the attributes that were attached. *)
Definition attached_keys (evs : list event) : list string :=
  flat_map (fun c => match c with SetAttribute _ k _ => [k] | _ => [] end) (done evs).

(** The keys attached to one span. *)
Definition keys_of (sp : nat) (evs : list event) : list string :=
  flat_map (fun c => match c with
                     | SetAttribute sp' k _ => if Nat.eqb sp sp' then [k] else []
                     | _ => []
                     end) (done evs).

(** How many times [span.end()] returned for a span. *)
Definition times_ended (sp : nat) (evs : list event) : nat :=
  List.length (filter (fun c => match c with
                                | EndSpan sp' => Nat.eqb sp sp'
                                | _ => false
                                end) (done evs)).

(** An environment whose backend never raises; the library functions are
    those of [env]. *)
Definition quiet (env : Env) : Env :=
  {| fails := fun _ _ => None;
     json_dumps := json_dumps env;
     crewai_dist_version := crewai_dist_version env;
     python_version := python_version env;
     platform_platform := platform_platform env;
     platform_release := platform_release env;
     platform_system := platform_system env;
     platform_version := platform_version env;
     cpu_count := cpu_count env |}.

(** The backend of [env] never raises. *)
Definition backend_quiet (env : Env) : Prop :=
  forall n c, fails env n c = None.

(** Whatever the backend or a library function raises is an [Exception]:
    no termination-class signal arrives during the call. *)
Definition ordinary (env : Env) : Prop :=
  (forall n c e, fails env n c = Some e -> is_Exception e = true) /\
  (forall v e, json_dumps env v = Raised e -> is_Exception e = true) /\
  (forall e, crewai_dist_version env = Raised e -> is_Exception e = true).

(** The only backend calls that raise are [span.set_attribute], and they
    raise an [Exception]. *)
Definition attach_failures_only (env : Env) : Prop :=
  forall n c e, fails env n c = Some e ->
    (exists sp k v, c = SetAttribute sp k v) /\ is_Exception e = true.

(** ** A concrete environment for the examples *)

Definition dquote : string := String (Ascii.ascii_of_nat 34) EmptyString.

(** The objects [json.dumps] accepts. *)
Fixpoint serializable (v : pyval) : bool :=
  match v with
  | PList l => forallb serializable l
  | PDict d => forallb (fun kv => serializable (snd kv)) d
  | PObj _ => false
  | _ => true
  end.

(** The text [json.dumps] gives, for values whose strings need no
    escaping. *)
Fixpoint render (v : pyval) : string :=
  match v with
  | PNone => "null"
  | PBool b => if b then "true" else "false"
  | PInt z => str_int z
  | PStr s => dquote ++ s ++ dquote
  | PList l =>
      "[" ++ String.concat ", " (map render l) ++ "]"
  | PDict d =>
      "{" ++ String.concat ", " (map (fun kv => dquote ++ fst kv ++ dquote ++ ": " ++ render (snd kv)) d)
          ++ "}"
  | PObj _ => EmptyString
  end.

(** [json.dumps]: any object that is not serializable raises [TypeError]. *)
Definition sample_json_dumps (v : pyval) : result string :=
  if serializable v then Returned (render v) else Raised TypeError.

Definition sample_env : Env :=
  {| fails := fun _ _ => None;
     json_dumps := sample_json_dumps;
     crewai_dist_version := Returned "0.80.0";
     python_version := "3.12.4";
     platform_platform := "Linux-6.8.0-x86_64-with-glibc2.39";
     platform_release := "6.8.0";
     platform_system := "Linux";
     platform_version := "#1 SMP";
     cpu_count := Some 8%Z |}.

(** [env] with another backend behaviour. *)
Definition with_fails (f : nat -> call -> option exn) (env : Env) : Env :=
  {| fails := f;
     json_dumps := json_dumps env;
     crewai_dist_version := crewai_dist_version env;
     python_version := python_version env;
     platform_platform := platform_platform env;
     platform_release := platform_release env;
     platform_system := platform_system env;
     platform_version := platform_version env;
     cpu_count := cpu_count env |}.

(** A fresh, ready [Telemetry] with nothing emitted yet, and an inert one. *)
Definition ready_world : World :=
  {| self := {| ready := true; trace_set := false |}; trace := [] |}.

Definition inert_world : World :=
  {| self := {| ready := false; trace_set := false |}; trace := [] |}.

Definition sample_task : Task :=
  {| task_key := "t-key"; task_id := "t-1"; description := "Write a haiku";
     expected_output := "Three lines";
     output := Some {| raw := "An old pond"; raw_output := "An old pond" |} |}.

Definition sample_crew (share : bool) : Crew :=
  {| crew_key := "c-key"; crew_id := "c-1"; share_crew := share;
     tasks := [sample_task]; _execution_span := None |}.

Definition sample_crew_data (share : bool) : dict :=
  [("key", PStr "c-key"); ("id", PStr "c-1"); ("process", PStr "sequential");
   ("share_crew", PBool share);
   ("tasks", PList [PDict [("key", PStr "t1")]; PDict [("key", PStr "t2")]]);
   ("agents", PList [PDict [("key", PStr "a1")]])].

(** ** Notions used to state the properties *)

Open Scope list_scope.

Definition set_share (b : bool) (crew : Crew) : Crew :=
  {| crew_key := crew_key crew; crew_id := crew_id crew; share_crew := b;
     tasks := tasks crew; _execution_span := _execution_span crew |}.

(** The emission [o] on a subject whose share flag is [b]; the emissions
    that read no share flag are left as they are. *)
Definition with_share (b : bool) (o : emission) : emission :=
  match o with
  | Crew_creation d i => Crew_creation (dict_set d "share_crew" (PBool b)) i
  | Task_started c t => Task_started (set_share b c) t
  | Task_ended sp t c => Task_ended sp t (set_share b c)
  | Individual_test_result_span c q t m => Individual_test_result_span (set_share b c) q t m
  | Test_execution_span c n i m => Test_execution_span (set_share b c) n i m
  | Crew_execution_span d i => Crew_execution_span (dict_set d "share_crew" (PBool b)) i
  | End_crew c s => End_crew (set_share b c) s
  | _ => o
  end.

(** The emissions whose code tests a share flag around some attribute. *)
Definition has_opt_in (o : emission) : bool :=
  match o with
  | Crew_creation _ _ | Task_started _ _ | Task_ended _ _ _
  | Test_execution_span _ _ _ _ | Crew_execution_span _ _ | End_crew _ _ => true
  | _ => false
  end.

(** The names of the spans an emission starts, in order. *)
Definition span_names (o : emission) : list string :=
  match o with
  | Crew_creation _ _ => ["Crew Created"]
  | Task_started _ _ => ["Task Created"; "Task Execution"]
  | Task_ended _ _ _ => []
  | Tool_repeated_usage _ _ _ => ["Tool Repeated Usage"]
  | Tool_usage _ _ _ => ["Tool Usage"]
  | Tool_usage_error _ => ["Tool Usage Error"]
  | Individual_test_result_span _ _ _ _ => ["Crew Individual Test Result"]
  | Test_execution_span _ _ _ _ => ["Crew Test Execution"]
  | Deploy_signup_error_span => ["Deploy Signup Error"]
  | Start_deployment_span _ => ["Start Deployment"]
  | Create_crew_deployment_span => ["Create Crew Deployment"]
  | Get_crew_logs_span _ _ => ["Get Crew Logs"]
  | Remove_crew_span _ => ["Remove Crew"]
  | Crew_execution_span _ _ => ["Crew Execution"]
  | End_crew _ _ => []
  | Flow_creation_span _ => ["Flow Creation"]
  | Flow_plotting_span _ _ => ["Flow Plotting"]
  | Flow_execution_span _ _ => ["Flow Execution"]
  end.

(** The events [evs], laid at positions [n], [n+1], ... of the trace, have
    the outcomes the environment gives at these positions. *)
Fixpoint consistent (env : Env) (n : nat) (evs : list event) : Prop :=
  match evs with
  | [] => True
  | (c, out) :: evs' => out = fails env n c /\ consistent env (S n) evs'
  end.

(** [w'] is [w] after some backend calls, the instance attributes untouched. *)
Definition extends (env : Env) (w w' : World) : Prop :=
  self w' = self w /\
  exists evs, trace w' = trace w ++ evs /\ consistent env (List.length (trace w)) evs.

(** A computation is tame when it only adds backend calls to the trace and,
    in an ordinary environment, raises nothing but [Exception]s. *)
Definition tame (env : Env) {A} (m : M A) : Prop :=
  forall w,
    extends env w (snd (m w)) /\
    (ordinary env -> forall e, fst (m w) = Raised e -> is_Exception e = true).

(** Two worlds that differ at most in the outcomes of the calls made. *)
Definition same_calls (w w0 : World) : Prop :=
  self w = self w0 /\ map fst (trace w) = map fst (trace w0).

(** Two computations that, from such worlds, give the same result and
    make the same calls. *)
Definition sim {A} (m m0 : M A) : Prop :=
  forall w w0, same_calls w w0 ->
    fst (m w) = fst (m0 w0) /\ same_calls (snd (m w)) (snd (m0 w0)).

(** An environment in which [tracer.start_span] is interrupted from the
    keyboard. *)
Definition interrupted_env : Env :=
  with_fails (fun _ c => match c with
                         | StartSpan _ _ => Some KeyboardInterrupt
                         | _ => None
                         end) sample_env.

(** How many of the calls of [ops], made one after the other from [w],
    turned [trace_set] from false to true. *)
Fixpoint trace_set_promotions (env : Env) (ops : list operation) (w : World) : nat :=
  match ops with
  | [] => 0
  | op :: ops' =>
      let w1 := snd (run env op w) in
      (if negb (trace_set (self w)) && trace_set (self w1) then 1 else 0)
      + trace_set_promotions env ops' w1
  end.

(** An environment in which installing the tracer provider fails. *)
Definition broken_install_env : Env :=
  with_fails (fun _ c => match c with
                         | SetTracerProvider => Some (OtherException "RuntimeError")
                         | _ => None
                         end) sample_env.


Definition failing_exporter_env : Env :=
  with_fails (fun _ c => match c with
                         | MkOTLPSpanExporter _ _ => Some ValueError
                         | _ => None
                         end) sample_env.

(** Of the calls [cs], attempted at positions [n], [n+1], ..., those the
    backend lets return. *)
Fixpoint survivors (env : Env) (n : nat) (cs : list call) : list call :=
  match cs with
  | [] => []
  | c :: cs' =>
      match fails env n c with
      | None => c :: survivors env (S n) cs'
      | Some _ => survivors env (S n) cs'
      end
  end.

(** An emission ran to its end when it returned a span, or when the last
    thing it did was to end one. *)
Definition ran_to_end (r : result span_ref) (evs : list event) : bool :=
  match r with
  | Returned (Some _) => true
  | _ =>
      match last evs (GetTracer EmptyString, None) with
      | (EndSpan _, None) => true
      | _ => false
      end
  end.

(** A crew dictionary whose agents hold an object [json.dumps] refuses. *)
Definition opaque_agents_crew_data : dict :=
  [("key", PStr "c-key"); ("id", PStr "c-1"); ("share_crew", PBool true);
   ("tasks", PList [PDict [("key", PStr "t1")]]);
   ("agents", PList [PObj 0])].

(** An environment in which attaching the attribute [crew_key] fails. *)
Definition refusing_crew_key_env : Env :=
  with_fails (fun _ c => match c with
                         | SetAttribute _ k _ =>
                             if String.eqb k "crew_key" then Some ValueError else None
                         | _ => None
                         end) sample_env.

(** The crew of the samples once its run has started: it is shared and
    holds the span that [crew_execution_span] returned. *)
Definition running_crew (span : span_ref) : Crew :=
  {| crew_key := "c-key"; crew_id := "c-1"; share_crew := true;
     tasks := [sample_task]; _execution_span := span |}.

(** The calls [__init__] makes to build the exporter pipeline, in order. *)
Definition init_calls : list call :=
  [MkResource "crewAI-telemetry"; MkTracerProvider;
   MkOTLPSpanExporter "https://telemetry.crewai.com:4319/v1/traces" 30;
   MkBatchSpanProcessor; AddSpanProcessor].

(** The emissions whose first attribute is the version of the installed
    [crewai] distribution, looked up right after the span is started. *)
Definition version_first (o : emission) : bool :=
  match o with
  | Tool_repeated_usage _ _ _ | Tool_usage _ _ _ | Tool_usage_error _
  | Individual_test_result_span _ _ _ _ | Test_execution_span _ _ _ _ => true
  | Crew_execution_span crew_data _ => truthy (dict_get crew_data "share_crew")
  | _ => false
  end.

(** An environment in which the [crewai] distribution is not installed. *)
Definition no_dist_env : Env :=
  {| fails := fun _ _ => None;
     json_dumps := sample_json_dumps;
     crewai_dist_version := Raised (OtherException "DistributionNotFound");
     python_version := "3.12.4";
     platform_platform := "Linux-6.8.0-x86_64-with-glibc2.39";
     platform_release := "6.8.0";
     platform_system := "Linux";
     platform_version := "#1 SMP";
     cpu_count := Some 8%Z |}.

(** A task that has not run yet, and a shared crew that holds it. *)
Definition pending_task : Task :=
  {| task_key := "t-key-2"; task_id := "t-2"; description := "Translate it";
     expected_output := "Three lines"; output := None |}.

Definition pending_crew (span : span_ref) : Crew :=
  {| crew_key := "c-key"; crew_id := "c-1"; share_crew := true;
     tasks := [sample_task; pending_task]; _execution_span := span |}.

(** A crew dictionary whose [tasks] entry is [None]. *)
Definition unsized_crew_data : dict :=
  [("key", PStr "c-key"); ("id", PStr "c-1"); ("tasks", PNone)].

(** The calls an emission may make: on spans, and for the tracer of the
    module. *)
Definition span_level (c : call) : bool :=
  match c with
  | GetTracer name => String.eqb name "crewai.telemetry"
  | StartSpan _ _ | SetAttribute _ _ _ | SetStatusOK _ | EndSpan _ => true
  | _ => false
  end.

(** A computation that makes calls of one kind only. *)
Definition calls_only (P : call -> bool) {A} (m : M A) : Prop :=
  forall w, exists evs,
    trace (snd (m w)) = trace w ++ evs /\ forallb (fun ev => P (fst ev)) evs = true.

(** How many times the tracer provider was installed. *)
Definition installed (evs : list event) : nat :=
  List.length
    (filter (fun c => match c with SetTracerProvider => true | _ => false end)
       (done evs)).

(** The keys an emission attaches under its share test only, as the source
    has them: the attributes inside [if crew_data.get("share_crew")] or
    [if crew.share_crew], and every attribute of the two operations whose
    whole body is under the test. *)
Definition opt_in_keys (o : emission) : list string :=
  match o with
  | Crew_creation _ _ =>
      ["crew_agents"; "crew_tasks"; "platform"; "platform_release";
       "platform_system"; "platform_version"; "cpus"; "crew_inputs"]
  | Task_started _ _ => ["formatted_description"; "formatted_expected_output"]
  | Task_ended _ _ _ => ["task_output"]
  | Test_execution_span _ _ _ _ => ["inputs"]
  | Crew_execution_span _ _ =>
      ["crewai_version"; "crew_key"; "crew_id"; "crew_inputs"; "crew_agents";
       "crew_tasks"]
  | End_crew _ _ => ["crewai_version"; "crew_output"; "crew_tasks_output"]
  | _ => []
  end.

(** A call that attaches none of the keys [ks]. *)
Definition avoids (ks : list string) (c : call) : bool :=
  match c with
  | SetAttribute _ k _ => negb (existsb (String.eqb k) ks)
  | _ => true
  end.

(** * Properties *)

(** ** How a method moves the world *)

Lemma consistent_app env n l1 l2 :
  consistent env n l1 -> consistent env (n + List.length l1) l2 ->
  consistent env n (l1 ++ l2).
Proof.
  revert n; induction l1 as [|[c out] l1 IH]; intros n H1 H2; simpl in *.
  - now rewrite Nat.add_0_r in H2.
  - destruct H1 as [Hout H1]; split; [exact Hout|].
    apply IH; [exact H1|]. now rewrite Nat.add_succ_r in H2.
Qed.

Lemma extends_refl env w : extends env w w.
Proof.
  split; [reflexivity|]. exists []. rewrite app_nil_r. now split.
Qed.

Lemma extends_trans env w1 w2 w3 :
  extends env w1 w2 -> extends env w2 w3 -> extends env w1 w3.
Proof.
  intros [Hs1 [l1 [Ht1 Hc1]]] [Hs2 [l2 [Ht2 Hc2]]].
  split; [congruence|].
  exists (l1 ++ l2); split.
  - rewrite Ht2, Ht1. now rewrite app_assoc.
  - apply consistent_app; [exact Hc1|].
    rewrite Ht1, length_app in Hc2. exact Hc2.
Qed.

Lemma extends_push env w c :
  extends env w (push w (c, fails env (List.length (trace w)) c)).
Proof.
  split; [reflexivity|].
  exists [(c, fails env (List.length (trace w)) c)]; simpl; auto.
Qed.

Section Tame.

Variable env : Env.

Lemma tame_ret {A} (a : A) : tame env (ret a).
Proof.
  intro w; split; [apply extends_refl|]. intros _ e H; discriminate H.
Qed.

Lemma tame_raise {A} (e : exn) : is_Exception e = true -> tame env (@raise A e).
Proof.
  intros He w; split; [apply extends_refl|].
  intros _ e' H; simpl in H. now inversion H; subst.
Qed.

Lemma tame_lift {A} (r : result A) :
  (ordinary env -> forall e, r = Raised e -> is_Exception e = true) ->
  tame env (lift r).
Proof.
  intros Hr w; split; [apply extends_refl|]. intros Ho e H; simpl in H. auto.
Qed.

Lemma tame_bind {A B} (m : M A) (k : A -> M B) :
  tame env m -> (forall a, tame env (k a)) -> tame env (bind m k).
Proof.
  intros Hm Hk w. unfold bind.
  destruct (Hm w) as [Hext Hexc].
  destruct (m w) as [[e|a] w1]; simpl in *.
  - split; [exact Hext|]. intros Ho e' H. inversion H; subst. now apply Hexc.
  - destruct (Hk a w1) as [Hext' Hexc'].
    split; [eapply extends_trans; eauto|exact Hexc'].
Qed.

Lemma tame_try_except {A} (body handler : M A) :
  tame env body -> tame env handler -> tame env (try_except body handler).
Proof.
  intros Hb Hh w. unfold try_except.
  destruct (Hb w) as [Hext Hexc].
  destruct (body w) as [[e|a] w1]; simpl in *.
  - destruct (is_Exception e) eqn:He.
    + destruct (Hh w1) as [Hext' Hexc'].
      split; [eapply extends_trans; eauto|exact Hexc'].
    + split; [exact Hext|]. intros Ho e' H; simpl in H. inversion H; subst.
      now apply Hexc.
  - split; [exact Hext|]. intros _ e H; discriminate H.
Qed.

Lemma tame_self_ready : tame env self_ready.
Proof.
  intro w; split; [apply extends_refl|]. intros _ e H; discriminate H.
Qed.

Lemma tame_backend (c : call) : tame env (backend env c).
Proof.
  intro w. unfold backend.
  pose proof (extends_push env w c) as Hp.
  destruct (fails env (List.length (trace w)) c) as [e|] eqn:Hf; simpl.
  - split; [exact Hp|]. intros [Ho _] e' H. inversion H; subst. eauto.
  - split; [exact Hp|]. intros _ e H; discriminate H.
Qed.

Lemma tame_get_tracer name : tame env (get_tracer env name).
Proof. apply tame_backend. Qed.

Lemma tame_start_span name : tame env (start_span env name).
Proof.
  intro w. unfold start_span.
  apply (tame_bind (backend env (StartSpan (List.length (trace w)) name))
           (fun _ => ret (Some (List.length (trace w))))).
  - apply tame_backend.
  - intros _; apply tame_ret.
Qed.

Lemma tame_set_attribute span k v : tame env (set_attribute env span k v).
Proof.
  destruct span; simpl; [apply tame_backend|now apply tame_raise].
Qed.

Lemma tame_set_status_ok span : tame env (set_status_ok env span).
Proof.
  destruct span; simpl; [apply tame_backend|now apply tame_raise].
Qed.

Lemma tame_span_end span : tame env (span_end env span).
Proof.
  destruct span; simpl; [apply tame_backend|now apply tame_raise].
Qed.

Lemma tame_add_attribute span k v : tame env (_add_attribute env span k v).
Proof.
  apply tame_try_except; [apply tame_set_attribute|apply tame_ret].
Qed.

Lemma tame_dist_version : tame env (dist_version env).
Proof.
  apply tame_bind; [|intros; apply tame_ret].
  apply tame_lift. intros [_ [_ Hv]] e H. eauto.
Qed.

Lemma tame_dumps x : tame env (dumps env x).
Proof.
  apply tame_bind; [|intros; apply tame_ret].
  apply tame_lift. intros [_ [Hj _]] e H. eauto.
Qed.

Lemma tame_dumps_inputs inputs : tame env (dumps_inputs env inputs).
Proof.
  destruct inputs as [d|]; simpl; [|apply tame_ret].
  destruct d; [apply tame_ret|apply tame_dumps].
Qed.

Lemma tame_py_len v : tame env (lift (py_len v)).
Proof.
  apply tame_lift. intros _ e H. destruct v; simpl in H; inversion H; reflexivity.
Qed.

Lemma tasks_output_raises ts e : tasks_output ts = Raised e -> e = AttributeError.
Proof.
  induction ts as [|t ts IH]; simpl; [discriminate|].
  destruct (output t); [|intro H; now inversion H].
  destruct (tasks_output ts); [|discriminate].
  intro H; inversion H; subst. now apply IH.
Qed.

Lemma tame_tasks_output ts : tame env (lift (tasks_output ts)).
Proof.
  apply tame_lift. intros _ e H. apply tasks_output_raises in H. now subst.
Qed.

End Tame.

Create HintDb tame.
#[export] Hint Resolve tame_ret tame_self_ready tame_get_tracer tame_start_span
  tame_set_status_ok tame_span_end tame_add_attribute tame_dist_version
  tame_dumps tame_dumps_inputs tame_py_len tame_tasks_output : tame.

Ltac tame_step :=
  match goal with
  | |- tame _ (bind _ _) => apply tame_bind; [|intros]
  | |- tame _ (try_except _ _) => apply tame_try_except
  | |- tame _ (if ?b then _ else _) => destruct b
  | |- tame _ (match ?x with _ => _ end) => destruct x
  | |- tame _ _ => solve [auto with tame]
  end.

Lemma tame_emit env o : tame env (emit env o).
Proof.
  destruct o; cbn [emit];
    match goal with |- tame _ (?f _) => unfold f | |- tame _ (?f _ _) => unfold f
                  | |- tame _ (?f _ _ _) => unfold f | |- tame _ (?f _ _ _ _) => unfold f
                  | |- tame _ (?f _ _ _ _ _) => unfold f end;
    repeat tame_step.
Qed.

(** ** A run beside its failure-free twin *)

Lemma same_calls_length w w0 :
  same_calls w w0 -> List.length (trace w) = List.length (trace w0).
Proof.
  intros [_ H]. rewrite <- (length_map fst (trace w)), H. apply length_map.
Qed.

Lemma same_calls_push w w0 c out out0 :
  same_calls w w0 -> same_calls (push w (c, out)) (push w0 (c, out0)).
Proof.
  intros [Hs Ht]; split; simpl; [exact Hs|].
  rewrite !map_app, Ht. reflexivity.
Qed.

Lemma sim_ret {A} (a : A) : sim (ret a) (ret a).
Proof. intros w w0 H; simpl; auto. Qed.

Lemma sim_raise {A} (e : exn) : sim (@raise A e) (raise e).
Proof. intros w w0 H; simpl; auto. Qed.

Lemma sim_lift {A} (r : result A) : sim (lift r) (lift r).
Proof. intros w w0 H; simpl; auto. Qed.

Lemma sim_self_ready : sim self_ready self_ready.
Proof. intros w w0 H; simpl; split; [|exact H]. destruct H as [Hs _]. now rewrite Hs. Qed.

Lemma sim_bind {A B} (m m0 : M A) (k k0 : A -> M B) :
  sim m m0 -> (forall a, sim (k a) (k0 a)) -> sim (bind m k) (bind m0 k0).
Proof.
  intros Hm Hk w w0 Hw. unfold bind.
  destruct (Hm w w0 Hw) as [Hr Hw'].
  destruct (m w) as [[e|a] w1], (m0 w0) as [[e0|a0] w01]; simpl in *;
    try discriminate Hr.
  - inversion Hr; subst. split; [reflexivity|exact Hw'].
  - inversion Hr; subst. now apply Hk.
Qed.

Lemma sim_try_except {A} (b b0 h h0 : M A) :
  sim b b0 -> sim h h0 -> sim (try_except b h) (try_except b0 h0).
Proof.
  intros Hb Hh w w0 Hw. unfold try_except.
  destruct (Hb w w0 Hw) as [Hr Hw'].
  destruct (b w) as [[e|a] w1], (b0 w0) as [[e0|a0] w01]; simpl in *;
    try discriminate Hr.
  - inversion Hr; subst. destruct (is_Exception e0); [now apply Hh|].
    split; [reflexivity|exact Hw'].
  - split; [exact Hr|exact Hw'].
Qed.

Section Sim.

Variable env : Env.
Hypothesis attach_only : attach_failures_only env.

(** A call that is not [set_attribute] returns on both sides. *)
Lemma sim_backend (c : call) :
  (forall sp k v, c <> SetAttribute sp k v) ->
  sim (backend env c) (backend (quiet env) c).
Proof.
  intros Hc w w0 Hw. unfold backend; simpl.
  destruct (fails env (List.length (trace w)) c) as [e|] eqn:Hf.
  - destruct (attach_only _ _ _ Hf) as [[sp [k [v Heq]]] _].
    now elim (Hc sp k v).
  - simpl; split; [reflexivity|now apply same_calls_push].
Qed.

Lemma sim_get_tracer name : sim (get_tracer env name) (get_tracer (quiet env) name).
Proof. apply sim_backend; discriminate. Qed.

Lemma sim_start_span name : sim (start_span env name) (start_span (quiet env) name).
Proof.
  intros w w0 Hw. unfold start_span. cbv beta zeta.
  rewrite (same_calls_length w w0 Hw).
  set (c := StartSpan (List.length (trace w0)) name).
  assert (Hc : sim (backend env c) (backend (quiet env) c))
    by (apply sim_backend; discriminate).
  exact (sim_bind _ _ (fun _ => ret (Some (List.length (trace w0)))) _
           Hc (fun _ => sim_ret _) w w0 Hw).
Qed.

Lemma sim_set_status_ok span :
  sim (set_status_ok env span) (set_status_ok (quiet env) span).
Proof.
  destruct span; simpl; [apply sim_backend; discriminate|apply sim_raise].
Qed.

Lemma sim_span_end span : sim (span_end env span) (span_end (quiet env) span).
Proof.
  destruct span; simpl; [apply sim_backend; discriminate|apply sim_raise].
Qed.

(** The guarded attachment returns on both sides, whether the call raised
    or not. *)
Lemma sim_add_attribute span k v :
  sim (_add_attribute env span k v) (_add_attribute (quiet env) span k v).
Proof.
  intros w w0 Hw. unfold _add_attribute, try_except, set_attribute.
  destruct span as [sp|]; simpl; [|auto].
  unfold backend; simpl.
  destruct (fails env (List.length (trace w)) (SetAttribute sp k v)) as [e|] eqn:Hf.
  - destruct (attach_only _ _ _ Hf) as [_ He]. rewrite He; simpl.
    split; [reflexivity|now apply same_calls_push].
  - simpl; split; [reflexivity|now apply same_calls_push].
Qed.

Lemma sim_dist_version : sim (dist_version env) (dist_version (quiet env)).
Proof.
  apply sim_bind; [apply sim_lift|intros; apply sim_ret].
Qed.

Lemma sim_dumps x : sim (dumps env x) (dumps (quiet env) x).
Proof.
  apply sim_bind; [apply sim_lift|intros; apply sim_ret].
Qed.

Lemma sim_dumps_inputs inputs :
  sim (dumps_inputs env inputs) (dumps_inputs (quiet env) inputs).
Proof.
  destruct inputs as [d|]; simpl; [|apply sim_ret].
  destruct d; [apply sim_ret|apply sim_dumps].
Qed.

End Sim.

Create HintDb sim.
#[export] Hint Resolve sim_ret sim_lift sim_self_ready sim_get_tracer sim_start_span
  sim_set_status_ok sim_span_end sim_add_attribute sim_dist_version sim_dumps
  sim_dumps_inputs : sim.

Ltac sim_step :=
  match goal with
  | |- sim (bind _ _) (bind _ _) => apply sim_bind; [|intros]
  | |- sim (try_except _ _) (try_except _ _) => apply sim_try_except
  | |- sim (if ?b then _ else _) _ => destruct b
  | |- sim (match ?x with _ => _ end) _ => destruct x
  | |- sim _ _ => solve [auto with sim]
  end.

Ltac unfold_method :=
  match goal with
  | |- context [crew_creation] => unfold crew_creation
  | |- context [task_started] => unfold task_started
  | |- context [task_ended] => unfold task_ended
  | |- context [tool_repeated_usage] => unfold tool_repeated_usage
  | |- context [tool_usage_error] => unfold tool_usage_error
  | |- context [tool_usage] => unfold tool_usage
  | |- context [individual_test_result_span] => unfold individual_test_result_span
  | |- context [test_execution_span] => unfold test_execution_span
  | |- context [deploy_signup_error_span] => unfold deploy_signup_error_span
  | |- context [start_deployment_span] => unfold start_deployment_span
  | |- context [create_crew_deployment_span] => unfold create_crew_deployment_span
  | |- context [get_crew_logs_span] => unfold get_crew_logs_span
  | |- context [remove_crew_span] => unfold remove_crew_span
  | |- context [crew_execution_span] => unfold crew_execution_span
  | |- context [end_crew] => unfold end_crew
  | |- context [flow_creation_span] => unfold flow_creation_span
  | |- context [flow_plotting_span] => unfold flow_plotting_span
  | |- context [flow_execution_span] => unfold flow_execution_span
  end.

Lemma sim_emit env o :
  attach_failures_only env -> sim (emit env o) (emit (quiet env) o).
Proof.
  intro H. destruct o; cbn [emit]; unfold_method; cbn [python_version
    platform_platform platform_release platform_system platform_version cpu_count quiet];
    repeat sim_step.
Qed.

(** ** Runs on a backend that never raises *)

Lemma backend_quiet_quiet env : backend_quiet (quiet env).
Proof. intros n c; reflexivity. Qed.

Lemma backend_quiet_attach env : backend_quiet env -> attach_failures_only env.
Proof. intros H n c e Hf. rewrite H in Hf. discriminate Hf. Qed.

Lemma consistent_quiet_eq env env0 n l l0 :
  backend_quiet env -> backend_quiet env0 ->
  consistent env n l -> consistent env0 n l0 ->
  map fst l = map fst l0 -> l = l0.
Proof.
  intros Hq Hq0. revert n l0.
  induction l as [|[c out] l IH]; intros n [|[c0 out0] l0] Hc Hc0 Hm;
    simpl in *; try discriminate Hm; [reflexivity|].
  destruct Hc as [Ho Hc], Hc0 as [Ho0 Hc0].
  inversion Hm; subst. rewrite Hq, Hq0. f_equal. eapply IH; eauto.
Qed.

(** On a backend that never raises, a method runs as in the environment
    [quiet env], whose oracle is the constant one. *)
Lemma quiet_run env o w :
  backend_quiet env -> emit env o w = emit (quiet env) o w.
Proof.
  intro Hq.
  destruct (sim_emit env o (backend_quiet_attach env Hq) w w) as [Hr [Hs Hm]];
    [split; reflexivity|].
  destruct (tame_emit env o w) as [[_ [l [Ht Hc]]] _].
  destruct (tame_emit (quiet env) o w) as [[_ [l0 [Ht0 Hc0]]] _].
  rewrite Ht, Ht0, !map_app in Hm. apply app_inv_head in Hm.
  assert (l = l0) as <-
    by exact (consistent_quiet_eq env (quiet env) _ l l0 Hq
                (backend_quiet_quiet env) Hc Hc0 Hm).
  destruct (emit env o w) as [r [s t]], (emit (quiet env) o w) as [r0 [s0 t0]];
    simpl in *. congruence.
Qed.

Lemma skipn_length_app {A} (l l' : list A) : skipn (List.length l) (l ++ l') = l'.
Proof. induction l; simpl; auto. Qed.

Lemma emitted_app {A} (m : M A) w l :
  trace (snd (m w)) = trace w ++ l -> emitted m w = l.
Proof. intro H. unfold emitted. rewrite H. apply skipn_length_app. Qed.

(** ** Exceptions that reach the caller *)



Lemma emit_inert env o w :
  ready (self w) = false -> emit env o w = (Returned None, w).
Proof.
  intro H.
  destruct o; cbn [emit]; unfold_method; unfold bind at 1, self_ready;
    cbv beta iota; rewrite H; reflexivity.
Qed.

Lemma dict_get_set d k v : dict_get (dict_set d k v) k = v.
Proof. unfold dict_get, dict_set; simpl. now rewrite String.eqb_refl. Qed.

(** ** Evaluating a method on a backend that never raises *)

Ltac split_match :=
  match goal with
  | |- context [match ?x with _ => _ end] =>
      lazymatch x with
      | context [match _ with _ => _ end] => fail
      | _ => destruct x eqn:?
      end
  end.

Ltac unfold_monad :=
  cbv [try_except try_except_base bind ret lift raise get_tracer start_span
       _add_attribute set_attribute set_status_ok span_end backend dist_version
       dumps dumps_inputs self_ready self_trace_set set_ready set_trace_set
       push quiet fails json_dumps crewai_dist_version
       python_version platform_platform platform_release platform_system
       platform_version cpu_count trace self ready trace_set is_Exception];
  cbn [fst snd].

Ltac tidy_trace :=
  rewrite <- ?app_assoc; cbn [app];
  rewrite ?skipn_length_app, ?skipn_all, ?length_app; cbn [List.length Nat.add].

Lemma sample_env_ordinary : ordinary sample_env.
Proof.
  repeat split; simpl.
  - intros n c e H; discriminate H.
  - intros v e H. unfold sample_json_dumps in H.
    destruct (serializable v); now inversion H.
  - intros e H; discriminate H.
Defined.

Lemma sample_env_quiet : backend_quiet sample_env.
Proof. intros n c; reflexivity. Defined.

(** ** The instance attributes *)

Lemma run_step_flags env op w :
  (ready (self (snd (run env op w))) = true -> ready (self w) = true) /\
  (trace_set (self w) = true -> trace_set (self (snd (run env op w))) = true).
Proof.
  destruct op as [|o]; cbn [run].
  - destruct w as [[rdy ts] t].
    unfold set_tracer, self_ready, self_trace_set, bind, try_except, backend,
      set_trace_set, set_ready, ret; simpl.
    destruct rdy, ts; simpl; try (split; auto; fail).
    destruct (fails env (List.length t) SetTracerProvider) as [e|]; simpl.
    + destruct e; simpl; split; auto; discriminate.
    + split; auto.
  - destruct (tame_emit env o w) as [[Hs _] _]. rewrite Hs. auto.
Qed.

Lemma run_all_ready env ops w :
  ready (self (run_all env ops w)) = true -> ready (self w) = true.
Proof.
  revert w; induction ops as [|op ops IH]; intros w H; simpl in *; [exact H|].
  apply (proj1 (run_step_flags env op w)). now apply IH.
Qed.

Lemma no_promotion_once_set env ops w :
  trace_set (self w) = true -> trace_set_promotions env ops w = 0.
Proof.
  revert w; induction ops as [|op ops IH]; intros w H; simpl; [reflexivity|].
  rewrite H; simpl. apply IH. now apply (proj2 (run_step_flags env op w)).
Qed.

Lemma at_most_one_promotion env ops w : trace_set_promotions env ops w <= 1.
Proof.
  revert w; induction ops as [|op ops IH]; intros w; simpl; [lia|].
  destruct (trace_set (self w)) eqn:Hts; simpl.
  - rewrite no_promotion_once_set; [lia|].
    now apply (proj2 (run_step_flags env op w)).
  - destruct (trace_set (self (snd (run env op w)))) eqn:Hts1.
    + rewrite no_promotion_once_set by exact Hts1. lia.
    + apply IH.
Qed.

(** ** Attachments that fail *)

Lemma done_consistent env n evs :
  consistent env n evs -> done evs = survivors env n (map fst evs).
Proof.
  revert n; induction evs as [|[c out] evs IH]; intros n H; [reflexivity|].
  destruct H as [Hout H]. unfold done in *. simpl. rewrite <- Hout.
  destruct out; simpl; [now apply IH|]. f_equal. now apply IH.
Qed.

Lemma emit_trace env o w :
  trace (snd (emit env o w)) = trace w ++ emitted (emit env o) w /\
  consistent env (List.length (trace w)) (emitted (emit env o) w).
Proof.
  destruct (tame_emit env o w) as [[_ [l [Ht Hc]]] _].
  rewrite (emitted_app _ _ _ Ht). split; assumption.
Qed.

Lemma refusing_crew_key_env_attach : attach_failures_only refusing_crew_key_env.
Proof.
  intros n c e H. simpl in H.
  destruct c; try discriminate H.
  destruct (String.eqb key "crew_key"); [|discriminate H].
  inversion H; subst. split; [eauto|reflexivity].
Defined.

(** ** Stepping through a method on the quiet backend *)

Section Steps.

Variable env : Env.
Context {A B : Type}.

Lemma run_ret (a : A) (k : A -> M B) w : bind (ret a) k w = k a w.
Proof. reflexivity. Qed.

Lemma run_assoc {C} (m : M C) (f : C -> M A) (k : A -> M B) w :
  bind (bind m f) k w = bind m (fun c => bind (f c) k) w.
Proof. unfold bind. destruct (m w) as [[e|c] w1]; reflexivity. Qed.

Lemma run_lift (r : result A) (k : A -> M B) w :
  bind (lift r) k w
  = match r with Raised e => (Raised e, w) | Returned a => k a w end.
Proof. unfold bind, lift. destruct r; reflexivity. Qed.

Lemma run_self_ready (k : bool -> M B) w :
  bind self_ready k w = k (ready (self w)) w.
Proof. reflexivity. Qed.

Lemma run_get_tracer name (k : unit -> M B) w :
  bind (get_tracer (quiet env) name) k w = k tt (push w (GetTracer name, None)).
Proof. reflexivity. Qed.

Lemma run_start_span name (k : span_ref -> M B) w :
  bind (start_span (quiet env) name) k w
  = k (Some (List.length (trace w)))
      (push w (StartSpan (List.length (trace w)) name, None)).
Proof. reflexivity. Qed.

Lemma run_add_attribute sp key v (k : unit -> M B) w :
  bind (_add_attribute (quiet env) (Some sp) key v) k w
  = k tt (push w (SetAttribute sp key v, None)).
Proof. reflexivity. Qed.

Lemma run_add_attribute_None key v (k : unit -> M B) w :
  bind (_add_attribute (quiet env) None key v) k w = k tt w.
Proof. reflexivity. Qed.

Lemma run_set_status_ok sp (k : unit -> M B) w :
  bind (set_status_ok (quiet env) (Some sp)) k w
  = k tt (push w (SetStatusOK sp, None)).
Proof. reflexivity. Qed.

Lemma run_set_status_ok_None (k : unit -> M B) w :
  bind (set_status_ok (quiet env) None) k w = (Raised AttributeError, w).
Proof. reflexivity. Qed.

Lemma run_span_end sp (k : unit -> M B) w :
  bind (span_end (quiet env) (Some sp)) k w = k tt (push w (EndSpan sp, None)).
Proof. reflexivity. Qed.

Lemma run_dist_version (k : pyval -> M B) w :
  bind (dist_version (quiet env)) k w
  = match crewai_dist_version env with
    | Raised e => (Raised e, w)
    | Returned v => k (PStr v) w
    end.
Proof.
  unfold dist_version, bind, lift, ret; simpl.
  destruct (crewai_dist_version env); reflexivity.
Qed.

Lemma run_dumps x (k : pyval -> M B) w :
  bind (dumps (quiet env) x) k w
  = match json_dumps env x with
    | Raised e => (Raised e, w)
    | Returned s => k (PStr s) w
    end.
Proof.
  unfold dumps, bind, lift, ret; simpl.
  destruct (json_dumps env x); reflexivity.
Qed.

Lemma run_dumps_inputs inputs (k : pyval -> M B) w :
  bind (dumps_inputs (quiet env) inputs) k w
  = match inputs with
    | Some d =>
        if truthy (PDict d)
        then match json_dumps env (PDict d) with
             | Raised e => (Raised e, w)
             | Returned s => k (PStr s) w
             end
        else k PNone w
    | None => k PNone w
    end.
Proof.
  destruct inputs as [d|]; simpl; [|reflexivity].
  destruct d; [reflexivity|apply run_dumps].
Qed.

End Steps.

Lemma run_try {A} (body handler : M A) w :
  try_except body handler w
  = match body w with
    | (Raised e, w') => if is_Exception e then handler w' else (Raised e, w')
    | (Returned a, w') => (Returned a, w')
    end.
Proof. unfold try_except. destruct (body w) as [[e|a] w']; reflexivity. Qed.

Lemma run_ret_end {A} (a : A) w : ret a w = (Returned a, w).
Proof. reflexivity. Qed.

Lemma trace_push w ev : trace (push w ev) = trace w ++ [ev].
Proof. reflexivity. Qed.

Lemma self_push w ev : self (push w ev) = self w.
Proof. reflexivity. Qed.

Lemma attached_keys_app l1 l2 :
  attached_keys (l1 ++ l2) = attached_keys l1 ++ attached_keys l2.
Proof.
  unfold attached_keys, done. now rewrite filter_app, map_app, flat_map_app.
Qed.

(** One step of a run on the quiet backend: the equation of the statement
    that comes next, found by its head. *)
Ltac fast_step :=
  lazymatch goal with
  | |- context [bind self_ready _ _] => rewrite run_self_ready
  | |- context [bind (ret _) _ _] => rewrite run_ret
  | |- context [bind (bind _ _) _ _] => rewrite run_assoc
  | |- context [bind (get_tracer _ _) _ _] => rewrite run_get_tracer
  | |- context [bind (start_span _ _) _ _] => rewrite run_start_span
  | |- context [bind (_add_attribute _ (Some _) _ _) _ _] => rewrite run_add_attribute
  | |- context [bind (_add_attribute _ None _ _) _ _] => rewrite run_add_attribute_None
  | |- context [bind (_add_attribute _ ?s _ _) _ _] => destruct s eqn:?
  | |- context [bind (set_status_ok _ (Some _)) _ _] => rewrite run_set_status_ok
  | |- context [bind (set_status_ok _ None) _ _] => rewrite run_set_status_ok_None
  | |- context [bind (set_status_ok _ ?s) _ _] => destruct s eqn:?
  | |- context [bind (span_end _ (Some _)) _ _] => rewrite run_span_end
  | |- context [bind (dist_version _) _ _] => rewrite run_dist_version
  | |- context [bind (dumps_inputs _ _) _ _] => rewrite run_dumps_inputs
  | |- context [bind (dumps _ _) _ _] => rewrite run_dumps
  | |- context [bind (lift _) _ _] => rewrite run_lift
  | |- context [try_except _ _ _] => rewrite run_try
  | |- context [ret _ _] => rewrite run_ret_end
  end.

(** The same, trying the equations one after the other. *)
Ltac slow_step :=
  first
    [ rewrite run_ret_end | rewrite run_self_ready | rewrite run_ret
    | rewrite run_assoc | rewrite run_get_tracer
    | rewrite run_start_span | rewrite run_add_attribute
    | rewrite run_add_attribute_None | rewrite run_set_status_ok
    | rewrite run_set_status_ok_None | rewrite run_span_end
    | rewrite run_dist_version | rewrite run_dumps_inputs | rewrite run_dumps
    | rewrite run_lift | rewrite run_try ].

Ltac run_step := first [ fast_step | slow_step ]; cbv beta iota.

Lemma dict_get_default_set_other d k v k' default :
  k <> k' -> dict_get_default (dict_set d k v) k' default = dict_get_default d k' default.
Proof.
  intro Hk. unfold dict_set; simpl.
  destruct (String.eqb k' k) eqn:E; [apply String.eqb_eq in E; congruence|].
  induction d as [|[k0 v0] d IH]; simpl; [reflexivity|].
  destruct (String.eqb k k0) eqn:E0; simpl.
  - apply String.eqb_eq in E0; subst k0. now rewrite E.
  - now rewrite IH.
Qed.

Lemma dict_get_set_other d k v k' :
  k <> k' -> dict_get (dict_set d k v) k' = dict_get d k'.
Proof. apply dict_get_default_set_other. Qed.

(** Runs a method on the quiet backend to its end, splitting on what the
    library functions return. *)
Ltac run_quiet :=
  repeat first [ run_step | split_match; cbv beta iota ].

Ltac tidy_run :=
  cbn [fst snd ret];
  rewrite ?trace_push; rewrite <- ?app_assoc; cbn [app];
  rewrite ?skipn_length_app, ?skipn_all.

(** The two runs of an emission, with and without sharing, side by side. *)
Ltac share_run :=
  cbn [emit]; unfold_method;
  cbn [set_share share_crew crew_key crew_id tasks _execution_span
       quiet python_version platform_platform platform_release platform_system
       platform_version cpu_count];
  rewrite ?dict_get_set; cbn [truthy];
  rewrite ?dict_get_default_set_other, ?dict_get_set_other by (intro; discriminate);
  try match goal with
      | |- context [cpu_count ?e] =>
          set (cpus := match cpu_count e with Some n => PInt n | None => PNone end)
      end;
  rewrite ?run_self_ready; cbv beta; rewrite ?andb_false_r, ?andb_true_r;
  run_quiet.

(** ** Further lemmas on runs *)

Lemma run_inert env op w :
  ready (self w) = false -> run env op w = (Returned None, w).
Proof.
  intro H. destruct op as [|o]; cbn [run]; [|now apply emit_inert].
  destruct w as [[rdy ts] t]; simpl in H; subst rdy. reflexivity.
Qed.

Ltac span_ids :=
  rewrite ?length_app, ?Nat.add_1_r; cbn [List.length Nat.add map app].

Ltac decide_eqb :=
  repeat match goal with
         | |- context [Nat.eqb ?a ?b] =>
             first [ replace (Nat.eqb a b) with true
                       by (symmetry; apply Nat.eqb_eq; lia)
                   | replace (Nat.eqb a b) with false
                       by (symmetry; apply Nat.eqb_neq; lia) ]
         end.

Lemma times_ended_app sp l1 l2 :
  times_ended sp (l1 ++ l2) = times_ended sp l1 + times_ended sp l2.
Proof.
  unfold times_ended, done. now rewrite !filter_app, map_app, filter_app, length_app.
Qed.

(** What [task_started] does to the world on a quiet backend: it returns a
    span it opened, and ends no span but one it opened and does not return. *)
Lemma task_started_quiet env crew task w :
  backend_quiet env -> ready (self w) = true ->
  exists h evs,
    task_started env crew task w
    = (Returned (Some h), {| self := self w; trace := trace w ++ evs |}) /\
    List.length (trace w) <= h < List.length (trace w ++ evs) /\
    forall sp,
      sp < List.length (trace w) \/ List.length (trace w ++ evs) <= sp \/ sp = h ->
      times_ended sp evs = 0.
Proof.
  intros Hq Hr.
  change (task_started env crew task) with (emit env (Task_started crew task)).
  rewrite (quiet_run env _ w Hq). cbn [emit]. unfold task_started.
  destruct w as [[rdy ts] t]; simpl in Hr; subst rdy. cbn [trace self].
  destruct (share_crew crew); unfold_monad;
    rewrite <- ?app_assoc; cbn [app];
    (eexists; eexists; split; [reflexivity|]);
    rewrite ?length_app; cbn [List.length];
    (split; [lia|]);
    intros sp Hsp; unfold times_ended, done; cbn [filter map snd fst];
    rewrite ?length_app; cbn [List.length];
    decide_eqb; reflexivity.
Qed.

Lemma task_ended_quiet env sp task crew w :
  backend_quiet env -> ready (self w) = true ->
  exists evs,
    task_ended env (Some sp) task crew w
    = (Returned None, {| self := self w; trace := trace w ++ evs |}) /\
    forall sp', times_ended sp' evs = if Nat.eqb sp' sp then 1 else 0.
Proof.
  intros Hq Hr.
  change (task_ended env (Some sp) task crew)
    with (emit env (Task_ended (Some sp) task crew)).
  rewrite (quiet_run env _ w Hq). cbn [emit]. unfold task_ended.
  destruct w as [[rdy ts] t]; simpl in Hr; subst rdy. cbn [trace self].
  destruct (share_crew crew); unfold_monad;
    rewrite <- ?app_assoc; cbn [app];
    (eexists; split; [reflexivity|]);
    intros sp'; unfold times_ended, done; cbn [filter map snd fst];
    destruct (Nat.eqb sp' sp); reflexivity.
Qed.

Lemma tasks_output_missing ts :
  (exists task, In task ts /\ output task = None) ->
  tasks_output ts = Raised AttributeError.
Proof.
  intros [task [Hin Hout]]. induction ts as [|t ts IH]; [destruct Hin|].
  simpl. destruct (output t) eqn:Ho; [|reflexivity].
  destruct Hin as [->|Hin]; [congruence|]. now rewrite (IH Hin).
Qed.

Lemma tasks_output_length ts l :
  tasks_output ts = Returned l -> List.length l = List.length ts.
Proof.
  revert l; induction ts as [|t ts IH]; simpl; intros l H.
  - now inversion H.
  - destruct (output t); [|discriminate H].
    destruct (tasks_output ts) as [e|l']; [discriminate H|].
    inversion H; subst. simpl. now rewrite (IH l' eq_refl).
Qed.

Lemma dict_get_default_missing d k default :
  ~ In k (map fst d) -> dict_get_default d k default = default.
Proof.
  induction d as [|[k' v] d IH]; simpl; intro H; [reflexivity|].
  destruct (String.eqb k k') eqn:E.
  - apply String.eqb_eq in E. subst. tauto.
  - apply IH. tauto.
Qed.

Lemma no_dist_env_quiet : backend_quiet no_dist_env.
Proof. intros n c; reflexivity. Defined.

(** ** The calls a method makes *)

Section CallsOnly.

Variable env : Env.
Variable P : call -> bool.

Lemma calls_only_ret {A} (a : A) : calls_only P (ret a).
Proof. intro w. exists []. simpl. now rewrite app_nil_r. Qed.

Lemma calls_only_raise {A} e : calls_only P (@raise A e).
Proof. intro w. exists []. simpl. now rewrite app_nil_r. Qed.

Lemma calls_only_lift {A} (r : result A) : calls_only P (lift r).
Proof. intro w. exists []. simpl. now rewrite app_nil_r. Qed.

Lemma calls_only_self_ready : calls_only P self_ready.
Proof. intro w. exists []. simpl. now rewrite app_nil_r. Qed.

Lemma calls_only_bind {A B} (m : M A) (k : A -> M B) :
  calls_only P m -> (forall a, calls_only P (k a)) -> calls_only P (bind m k).
Proof.
  intros Hm Hk w. unfold bind. destruct (Hm w) as [l1 [H1 F1]].
  destruct (m w) as [[e|a] w1]; simpl in *; [now exists l1|].
  destruct (Hk a w1) as [l2 [H2 F2]]. exists (l1 ++ l2). split.
  - now rewrite H2, H1, app_assoc.
  - now rewrite forallb_app, F1, F2.
Qed.

Lemma calls_only_try_except {A} (body handler : M A) :
  calls_only P body -> calls_only P handler -> calls_only P (try_except body handler).
Proof.
  intros Hb Hh w. unfold try_except. destruct (Hb w) as [l1 [H1 F1]].
  destruct (body w) as [[e|a] w1]; simpl in *; [|now exists l1].
  destruct (is_Exception e); [|now exists l1].
  destruct (Hh w1) as [l2 [H2 F2]]. exists (l1 ++ l2). split.
  - now rewrite H2, H1, app_assoc.
  - now rewrite forallb_app, F1, F2.
Qed.

Lemma calls_only_backend c : P c = true -> calls_only P (backend env c).
Proof.
  intros Hc w. unfold backend.
  destruct (fails env (List.length (trace w)) c); eexists; simpl;
    (split; [reflexivity|]); simpl; now rewrite Hc.
Qed.

End CallsOnly.

Section SpanLevel.

Variable env : Env.

Lemma span_level_get_tracer :
  calls_only span_level (get_tracer env "crewai.telemetry").
Proof. now apply calls_only_backend. Qed.

Lemma span_level_start_span name : calls_only span_level (start_span env name).
Proof.
  intro w. unfold start_span.
  apply (calls_only_bind span_level
           (backend env (StartSpan (List.length (trace w)) name))
           (fun _ => ret (Some (List.length (trace w))))).
  - now apply calls_only_backend.
  - intros _; apply calls_only_ret.
Qed.

Lemma span_level_set_status_ok span : calls_only span_level (set_status_ok env span).
Proof.
  destruct span; simpl; [now apply calls_only_backend|apply calls_only_raise].
Qed.

Lemma span_level_span_end span : calls_only span_level (span_end env span).
Proof.
  destruct span; simpl; [now apply calls_only_backend|apply calls_only_raise].
Qed.

Lemma span_level_add_attribute span k v :
  calls_only span_level (_add_attribute env span k v).
Proof.
  apply calls_only_try_except; [|apply calls_only_ret].
  destruct span; simpl; [now apply calls_only_backend|apply calls_only_raise].
Qed.

Lemma span_level_dist_version : calls_only span_level (dist_version env).
Proof.
  apply calls_only_bind; [apply calls_only_lift|intros; apply calls_only_ret].
Qed.

Lemma span_level_dumps x : calls_only span_level (dumps env x).
Proof.
  apply calls_only_bind; [apply calls_only_lift|intros; apply calls_only_ret].
Qed.

Lemma span_level_dumps_inputs inputs : calls_only span_level (dumps_inputs env inputs).
Proof.
  destruct inputs as [d|]; simpl; [|apply calls_only_ret].
  destruct d; [apply calls_only_ret|apply span_level_dumps].
Qed.

End SpanLevel.

Create HintDb span_level.
#[export] Hint Resolve calls_only_ret calls_only_lift calls_only_self_ready
  span_level_get_tracer span_level_start_span span_level_set_status_ok
  span_level_span_end span_level_add_attribute span_level_dist_version
  span_level_dumps span_level_dumps_inputs : span_level.

Ltac span_level_step :=
  match goal with
  | |- calls_only _ (bind _ _) => apply calls_only_bind; [|intros]
  | |- calls_only _ (try_except _ _) => apply calls_only_try_except
  | |- calls_only _ (if ?b then _ else _) => destruct b
  | |- calls_only _ (match ?x with _ => _ end) => destruct x
  | |- calls_only _ _ => solve [auto with span_level]
  end.

Lemma span_level_emit env o : calls_only span_level (emit env o).
Proof.
  destruct o; cbn [emit]; unfold_method; repeat span_level_step.
Qed.

Lemma installed_app l1 l2 : installed (l1 ++ l2) = installed l1 + installed l2.
Proof.
  unfold installed, done. now rewrite !filter_app, map_app, filter_app, length_app.
Qed.

Lemma installed_span_level evs :
  forallb (fun ev => span_level (fst ev)) evs = true -> installed evs = 0.
Proof.
  induction evs as [|[c out] evs IH]; [reflexivity|]. simpl.
  intro H. apply andb_true_iff in H. destruct H as [Hc H].
  unfold installed, done in *. simpl.
  destruct out; simpl; [now apply IH|].
  destruct c; try discriminate Hc; simpl; now apply IH.
Qed.

(** One call of an operation: what it adds to the trace installs the
    provider at most as many times as the flags still allow. *)
Lemma run_installs env op w :
  exists evs,
    trace (snd (run env op w)) = trace w ++ evs /\
    installed evs
    + (if ready (self (snd (run env op w)))
          && negb (trace_set (self (snd (run env op w)))) then 1 else 0)
    <= (if ready (self w) && negb (trace_set (self w)) then 1 else 0).
Proof.
  destruct op as [|o]; cbn [run].
  - destruct w as [[rdy ts] t].
    unfold set_tracer, self_ready, self_trace_set, bind, try_except, backend,
      set_trace_set, set_ready, ret, push; simpl.
    destruct rdy, ts; simpl; try (exists []; rewrite app_nil_r; split; auto; fail).
    destruct (fails env (List.length t) SetTracerProvider) as [e|]; simpl.
    + destruct (is_Exception e); simpl; eexists; (split; [reflexivity|]);
        unfold installed, done; simpl; lia.
    + eexists; (split; [reflexivity|]); unfold installed, done; simpl; lia.
  - destruct (span_level_emit env o w) as [evs [Ht Hf]].
    destruct (tame_emit env o w) as [[Hs _] _].
    exists evs. split; [exact Ht|]. rewrite Hs, (installed_span_level _ Hf). lia.
Qed.

Lemma run_all_installs env ops w :
  exists evs,
    trace (run_all env ops w) = trace w ++ evs /\
    installed evs <= (if ready (self w) && negb (trace_set (self w)) then 1 else 0).
Proof.
  revert w; induction ops as [|op ops IH]; intro w; simpl.
  - exists []. rewrite app_nil_r. split; [reflexivity|]. unfold installed; simpl. lia.
  - destruct (run_installs env op w) as [l1 [H1 B1]].
    destruct (IH (snd (run env op w))) as [l2 [H2 B2]].
    exists (l1 ++ l2). split; [now rewrite H2, H1, app_assoc|].
    rewrite installed_app. lia.
Qed.

(** ** Keys that are not attached *)

Section Avoids.

Variable env : Env.
Variable ks : list string.

Lemma avoids_get_tracer name : calls_only (avoids ks) (get_tracer env name).
Proof. now apply calls_only_backend. Qed.

Lemma avoids_start_span name : calls_only (avoids ks) (start_span env name).
Proof.
  intro w. unfold start_span.
  apply (calls_only_bind (avoids ks)
           (backend env (StartSpan (List.length (trace w)) name))
           (fun _ => ret (Some (List.length (trace w))))).
  - now apply calls_only_backend.
  - intros _; apply calls_only_ret.
Qed.

Lemma avoids_set_status_ok span : calls_only (avoids ks) (set_status_ok env span).
Proof.
  destruct span; simpl; [now apply calls_only_backend|apply calls_only_raise].
Qed.

Lemma avoids_span_end span : calls_only (avoids ks) (span_end env span).
Proof.
  destruct span; simpl; [now apply calls_only_backend|apply calls_only_raise].
Qed.

Lemma avoids_add_attribute span k v :
  existsb (String.eqb k) ks = false ->
  calls_only (avoids ks) (_add_attribute env span k v).
Proof.
  intro Hk. apply calls_only_try_except; [|apply calls_only_ret].
  destruct span; simpl; [|apply calls_only_raise].
  apply calls_only_backend. simpl. now rewrite Hk.
Qed.

Lemma avoids_dist_version : calls_only (avoids ks) (dist_version env).
Proof.
  apply calls_only_bind; [apply calls_only_lift|intros; apply calls_only_ret].
Qed.

Lemma avoids_dumps x : calls_only (avoids ks) (dumps env x).
Proof.
  apply calls_only_bind; [apply calls_only_lift|intros; apply calls_only_ret].
Qed.

Lemma avoids_dumps_inputs inputs : calls_only (avoids ks) (dumps_inputs env inputs).
Proof.
  destruct inputs as [d|]; simpl; [|apply calls_only_ret].
  destruct d; [apply calls_only_ret|apply avoids_dumps].
Qed.

End Avoids.

Create HintDb avoids.
#[export] Hint Resolve calls_only_ret calls_only_lift calls_only_self_ready
  avoids_get_tracer avoids_start_span avoids_set_status_ok avoids_span_end
  avoids_dist_version avoids_dumps avoids_dumps_inputs : avoids.

Ltac avoids_step :=
  match goal with
  | |- calls_only _ (bind _ _) => apply calls_only_bind; [|intros]
  | |- calls_only _ (try_except _ _) => apply calls_only_try_except
  | |- calls_only _ (_add_attribute _ _ _ _) =>
      apply avoids_add_attribute; reflexivity
  | |- calls_only _ (if _ && false then _ else _) => rewrite andb_false_r
  | |- calls_only _ (if ?b then _ else _) => destruct b
  | |- calls_only _ (match ?x with _ => _ end) => destruct x
  | |- calls_only _ _ => solve [auto with avoids]
  end.

Lemma avoids_keys ks evs k :
  forallb (fun ev => avoids ks (fst ev)) evs = true ->
  In k ks -> ~ In k (attached_keys evs).
Proof.
  intros Hf Hk. induction evs as [|[c out] evs IH]; [intros []|].
  simpl in Hf. apply andb_true_iff in Hf. destruct Hf as [Hc Hf].
  unfold attached_keys, done in *. simpl.
  destruct out; simpl; [now apply IH|].
  destruct c; simpl; try (now apply IH).
  intros [Heq|Hin]; [|now apply IH].
  subst key. simpl in Hc. apply negb_true_iff in Hc.
  assert (Ht : existsb (String.eqb k) ks = true)
    by (apply existsb_exists; exists k; split; [exact Hk|apply String.eqb_refl]).
  rewrite Ht in Hc. discriminate Hc.
Qed.

(** Without sharing, an emission attaches none of its opt-in keys, on any
    backend. *)
Lemma unshared_avoids_opt_in env o :
  calls_only (avoids (opt_in_keys o)) (emit env (with_share false o)).
Proof.
  destruct o; cbn [emit with_share opt_in_keys]; unfold_method;
    cbn [set_share share_crew crew_key crew_id tasks _execution_span];
    rewrite ?dict_get_set; cbn [truthy]; cbv beta iota;
    repeat avoids_step.
Qed.

Lemma no_opt_in_key_unshared env o w k :
  In k (opt_in_keys o) ->
  ~ In k (attached_keys (emitted (emit env (with_share false o)) w)).
Proof.
  intro Hk. destruct (unshared_avoids_opt_in env o w) as [evs [Ht Hf]].
  rewrite (emitted_app _ _ _ Ht). now apply (avoids_keys _ _ _ Hf).
Qed.


Lemma incl_by_eqb (l1 l2 : list string) :
  forallb (fun x => existsb (String.eqb x) l2) l1 = true -> incl l1 l2.
Proof.
  intros H x Hx. rewrite forallb_forall in H. specialize (H x Hx).
  apply existsb_exists in H. destruct H as [y [Hy Heq]].
  apply String.eqb_eq in Heq. now subst.
Qed.

(** The two conjuncts on the keys of the two runs, once both are
    evaluated. *)
Ltac keys_included :=
  intros -> ->; tidy_run;
  (split; [apply incl_by_eqb; reflexivity|]);
  intros Hend;
  first [ discriminate Hend | apply incl_by_eqb; reflexivity ].

(** * The claims *)




(** C2: when [ready] is false every emission operation returns [None] at
    once: the world is left as it was, so no span is opened, no attribute
    attached, nothing else done, and nothing is raised. *)
Theorem not_ready_is_noop env o w :
  ready (self w) = false ->
  emit env o w = (Returned None, w) /\ emitted (emit env o) w = [].
Proof.
  intro H. pose proof (emit_inert env o w H) as He. split; [exact He|].
  apply emitted_app. rewrite He; simpl. now rewrite app_nil_r.
Qed.

Lemma not_ready_is_noop_witness :
  ready (self inert_world) = false /\
  emit interrupted_env (Crew_creation (sample_crew_data true) None) inert_world
  = (Returned None, inert_world) /\
  emitted (emit interrupted_env (Crew_creation (sample_crew_data true) None)) inert_world
  = [].
Proof.
  split; [reflexivity|].
  apply (not_ready_is_noop interrupted_env
           (Crew_creation (sample_crew_data true) None) inert_world).
  reflexivity.
Defined.




(** C10: with [ready] true and a backend that does not fail, [task_started]
    first opens a span "Task Created", gives it the crew and task
    identifiers (and, when the crew is shared, the description and the
    expected output), marks it OK and ends it; only then does it open the
    span "Task Execution", with the same attributes, which it leaves open
    and returns. *)
Theorem task_started_two_spans env crew task w :
  backend_quiet env -> ready (self w) = true ->
  let identifiers sp :=
    [SetAttribute sp "crew_key" (PStr (crew_key crew));
     SetAttribute sp "crew_id" (PStr (crew_id crew));
     SetAttribute sp "task_key" (PStr (task_key task));
     SetAttribute sp "task_id" (PStr (task_id task))] in
  let content sp :=
    if share_crew crew
    then [SetAttribute sp "formatted_description" (PStr (description task));
          SetAttribute sp "formatted_expected_output" (PStr (expected_output task))]
    else [] in
  let created := S (List.length (trace w)) in
  let span := created + (if share_crew crew then 9 else 7) in
  let evs := emitted (task_started env crew task) w in
  fst (task_started env crew task w) = Returned (Some span) /\
  evs = map (fun c => (c, None))
          ([GetTracer "crewai.telemetry"; StartSpan created "Task Created"]
           ++ identifiers created ++ content created
           ++ [SetStatusOK created; EndSpan created; StartSpan span "Task Execution"]
           ++ identifiers span ++ content span) /\
  times_ended created evs = 1 /\
  times_ended span evs = 0.
Proof.
  intros Hq Hr. cbv zeta.
  change (task_started env crew task) with (emit env (Task_started crew task)).
  unfold emitted. rewrite (quiet_run env _ w Hq).
  destruct w as [[rdy ts] t]; simpl in Hr; subst rdy.
  cbn [emit]; unfold task_started.
  destruct (share_crew crew); unfold_monad; tidy_trace;
    rewrite ?Nat.add_succ_r, ?Nat.add_0_r;
    (split; [reflexivity|]); (split; [reflexivity|]);
    unfold times_ended, done; cbn [filter map snd fst List.length];
    rewrite ?Nat.eqb_refl; cbn [filter map snd fst List.length];
    split; try reflexivity.
  all: match goal with
       | |- context [Nat.eqb ?a ?b] =>
           replace (Nat.eqb a b) with false by (symmetry; apply Nat.eqb_neq; lia)
       end; reflexivity.
Qed.

Lemma task_started_two_spans_witness :
  backend_quiet sample_env /\ ready (self ready_world) = true /\
  fst (task_started sample_env (sample_crew true) sample_task ready_world)
  = Returned (Some 10) /\
  times_ended 1 (emitted (task_started sample_env (sample_crew true) sample_task) ready_world)
  = 1 /\
  times_ended 10 (emitted (task_started sample_env (sample_crew true) sample_task) ready_world)
  = 0.
Proof.
  split; [exact sample_env_quiet|]. split; [reflexivity|].
  pose proof (task_started_two_spans sample_env (sample_crew true) sample_task
                ready_world sample_env_quiet eq_refl) as H.
  cbv zeta in H. destruct H as [Hr [_ [H1 H0]]].
  split; [exact Hr|]. split; [exact H1|exact H0].
Defined.

Ltac init_eval :=
  unfold __init__, init_pipeline, try_except_base, bind, backend, set_ready,
    set_trace_set, init_on_failure, raise, push; simpl;
  repeat (match goal with
          | |- context [fails ?en ?n ?c] =>
              let E := fresh "E" in
              destruct (fails en n c) as [?e|] eqn:E; simpl
          end);
  try match goal with
      | |- context [is_termination ?e] =>
          let T := fresh "T" in destruct (is_termination e) eqn:T; simpl
      end;
  rewrite <- ?app_assoc; cbn [app]; rewrite ?skipn_length_app.



(** C8: once the object exists, no operation turns [ready] from false to
    true, however many are called; [trace_set] goes from false to true at
    most once; the emission operations write no instance attribute;
    [set_tracer] called again after it returned does nothing, and when the
    installation fails it returns with [ready] false. *)
Theorem ready_is_only_demoted env :
  (forall ops w, ready (self (run_all env ops w)) = true -> ready (self w) = true) /\
  (forall ops w, trace_set_promotions env ops w <= 1) /\
  (forall o w, self (snd (emit env o w)) = self w) /\
  (forall w r, fst (set_tracer env w) = Returned r ->
     set_tracer env (snd (set_tracer env w)) = (Returned tt, snd (set_tracer env w))) /\
  (forall w e,
     ready (self w) = true -> trace_set (self w) = false ->
     fails env (List.length (trace w)) SetTracerProvider = Some e ->
     is_Exception e = true ->
     fst (set_tracer env w) = Returned tt /\
     ready (self (snd (set_tracer env w))) = false).
Proof.
  split; [|split; [|split; [|split]]].
  - intros ops w. apply run_all_ready.
  - intros ops w. apply at_most_one_promotion.
  - intros o w. destruct (tame_emit env o w) as [[Hs _] _]. exact Hs.
  - intros [[rdy ts] t] r.
    unfold set_tracer, self_ready, self_trace_set, bind, try_except, backend,
      set_trace_set, set_ready, ret; simpl.
    destruct rdy, ts; simpl; try reflexivity.
    destruct (fails env (List.length t) SetTracerProvider) as [e|]; simpl.
    + destruct (is_Exception e); simpl; [reflexivity|discriminate].
    + reflexivity.
  - intros [[rdy ts] t] e Hr Hts Hf He. simpl in Hr, Hts, Hf. subst rdy ts.
    unfold set_tracer, self_ready, self_trace_set, bind, try_except, backend,
      set_trace_set, set_ready, ret; simpl.
    rewrite Hf; simpl. rewrite He; simpl. split; reflexivity.
Qed.

Lemma ready_is_only_demoted_witness :
  ready (self ready_world) = true /\ trace_set (self ready_world) = false /\
  fails broken_install_env (List.length (trace ready_world)) SetTracerProvider
  = Some (OtherException "RuntimeError") /\
  is_Exception (OtherException "RuntimeError") = true /\
  (fst (set_tracer broken_install_env ready_world) = Returned tt /\
   ready (self (snd (set_tracer broken_install_env ready_world))) = false) /\
  set_tracer sample_env (snd (set_tracer sample_env ready_world))
  = (Returned tt, snd (set_tracer sample_env ready_world)) /\
  ready (self ready_world) = true.
Proof.
  split; [reflexivity|]. split; [reflexivity|]. split; [reflexivity|].
  split; [reflexivity|]. split; [|split].
  - exact (proj2 (proj2 (proj2 (proj2 (ready_is_only_demoted broken_install_env))))
             ready_world (OtherException "RuntimeError") eq_refl eq_refl eq_refl eq_refl).
  - exact (proj1 (proj2 (proj2 (proj2 (ready_is_only_demoted sample_env))))
             ready_world tt eq_refl).
  - exact (proj1 (ready_is_only_demoted sample_env)
             [Set_tracer; Emit (Tool_usage None "search" 1%Z); Set_tracer]
             ready_world eq_refl).
Defined.

(** C5, as stated, fails for a value that cannot be serialized:
    [json.dumps] is called while the arguments of [_add_attribute] are
    evaluated, outside its [try].  In [crew_creation] on a shared crew whose
    agents hold such an object, [json.dumps] raises, the handler of
    [crew_creation] swallows it, and the siblings that come after
    ([crew_tasks], whose value serializes, and the platform attributes) are
    not attached; the span is not ended either. *)
Lemma unserializable_value_aborts_span :
  let o := Crew_creation opaque_agents_crew_data None in
  let evs := emitted (emit sample_env o) ready_world in
  json_dumps sample_env (dict_get opaque_agents_crew_data "agents") = Raised TypeError /\
  (exists s, json_dumps sample_env (dict_get opaque_agents_crew_data "tasks")
             = Returned s) /\
  fst (emit sample_env o ready_world) = Returned None /\
  opened_spans evs = [(1, "Crew Created"%string)] /\
  ~ In "crew_tasks"%string (attached_keys evs) /\
  ~ In "platform"%string (attached_keys evs) /\
  times_ended 1 evs = 0.
Proof.
  cbv zeta. split; [reflexivity|]. split; [eexists; reflexivity|].
  vm_compute. repeat split; try reflexivity; intuition discriminate.
Qed.

(** C5, amended: a failure of the attachment itself ([span.set_attribute]
    raising an [Exception]) is dropped on its own.  When these are the only
    failures of the backend, an emission returns what it returns on a
    backend that never fails, and the calls that went through are those of
    that failure-free run, in the same order, less the attachments that
    raised: no sibling is lost, and the span is marked and ended as usual. *)
Theorem attach_failure_is_isolated env o w :
  attach_failures_only env ->
  fst (emit env o w) = fst (emit (quiet env) o w) /\
  done (emitted (emit env o) w)
  = survivors env (List.length (trace w)) (map fst (emitted (emit (quiet env) o) w)).
Proof.
  intro Ha.
  destruct (sim_emit env o Ha w w) as [Hr [_ Hm]]; [split; reflexivity|].
  split; [exact Hr|].
  destruct (emit_trace env o w) as [Ht Hc].
  destruct (emit_trace (quiet env) o w) as [Ht0 _].
  rewrite Ht, Ht0, !map_app in Hm. apply app_inv_head in Hm.
  rewrite <- Hm. now apply done_consistent.
Qed.

Lemma attach_failure_is_isolated_witness :
  attach_failures_only refusing_crew_key_env /\
  fst (emit refusing_crew_key_env (Task_started (sample_crew true) sample_task) ready_world)
  = Returned (Some 10) /\
  attached_keys
    (emitted (emit refusing_crew_key_env (Task_started (sample_crew true) sample_task))
       ready_world)
  = ["crew_id"; "task_key"; "task_id"; "formatted_description";
     "formatted_expected_output";
     "crew_id"; "task_key"; "task_id"; "formatted_description";
     "formatted_expected_output"]%string.
Proof.
  split; [exact refusing_crew_key_env_attach|].
  destruct (attach_failure_is_isolated refusing_crew_key_env
              (Task_started (sample_crew true) sample_task) ready_world
              refusing_crew_key_env_attach) as [Hr Hd].
  split.
  - rewrite Hr. reflexivity.
  - unfold attached_keys. rewrite Hd. reflexivity.
Defined.

(** C3, as stated, fails on strictness: in [crew_creation] on a crew whose
    agents [json.dumps] refuses, the first opt-in value raises and the
    emission stops there, so that the keys attached with sharing are
    exactly those attached without. *)
Lemma sharing_may_add_no_key :
  let o := Crew_creation opaque_agents_crew_data None in
  let keys b := attached_keys (emitted (emit sample_env (with_share b o)) ready_world) in
  has_opt_in o = true /\
  keys true = keys false /\
  keys false = ["crewai_version"; "python_version"; "crew_key"; "crew_id";
                "crew_process"; "crew_memory"; "crew_number_of_tasks";
                "crew_number_of_agents"]%string /\
  ~ (exists k, In k (keys true) /\ ~ In k (keys false)).
Proof.
  cbv zeta. split; [reflexivity|]. split; [reflexivity|]. split; [reflexivity|].
  intros [k [Hin Hout]]. apply Hout. exact Hin.
Qed.

(** C3, amended: without sharing no opt-in key of the event is attached,
    on any backend.  On a backend that does not fail, every key attached
    without sharing is attached with sharing (sharing removes no key), and
    whenever the emission with sharing runs to its end (no value of its
    attributes raised on the way) all the opt-in keys of the event are
    attached, so that for an event with opt-in attributes the inclusion is
    strict. *)
Theorem share_flag_only_adds_keys env o w :
  let keys b := attached_keys (emitted (emit env (with_share b o)) w) in
  let shared_to_end :=
    ran_to_end (fst (emit env (with_share true o) w))
      (emitted (emit env (with_share true o)) w) = true in
  (forall k, In k (opt_in_keys o) -> ~ In k (keys false)) /\
  (backend_quiet env ->
   incl (keys false) (keys true) /\
   (shared_to_end -> incl (opt_in_keys o) (keys true)) /\
   (has_opt_in o = true -> shared_to_end ->
    exists k, In k (keys true) /\ ~ In k (keys false))).
Proof.
  cbv zeta. split; [intros k Hk; now apply no_opt_in_key_unshared|].
  intro Hq.
  assert (H : incl (attached_keys (emitted (emit env (with_share false o)) w))
                (attached_keys (emitted (emit env (with_share true o)) w)) /\
              (ran_to_end (fst (emit env (with_share true o) w))
                 (emitted (emit env (with_share true o)) w) = true ->
               incl (opt_in_keys o)
                 (attached_keys (emitted (emit env (with_share true o)) w)))).
  { unfold emitted. rewrite !(quiet_run env _ w Hq).
    remember (emit (quiet env) (with_share true o) w) as rt eqn:Ht.
    remember (emit (quiet env) (with_share false o) w) as rf eqn:Hf.
    revert Ht Hf.
    destruct o; cbn [with_share opt_in_keys];
      try (intros -> ->; split; [apply incl_refl|intros _ k []]).
    - share_run; keys_included.
    - share_run; keys_included.
    - share_run; keys_included.
    - share_run; keys_included.
    - share_run; keys_included.
    - share_run; keys_included. }
  destruct H as [Hincl Hall]. split; [exact Hincl|]. split; [exact Hall|].
  intros Ho Hend. specialize (Hall Hend).
  destruct (opt_in_keys o) as [|k ks] eqn:Hk; [destruct o; discriminate|].
  exists k. split; [apply Hall; now left|].
  apply no_opt_in_key_unshared. rewrite Hk. now left.
Qed.

Lemma share_flag_only_adds_keys_witness :
  let o := Crew_creation (sample_crew_data false) None in
  let keys b := attached_keys (emitted (emit sample_env (with_share b o)) ready_world) in
  In "crew_agents"%string (opt_in_keys o) /\
  ~ In "crew_agents"%string (keys false) /\
  backend_quiet sample_env /\
  has_opt_in o = true /\
  ran_to_end (fst (emit sample_env (with_share true o) ready_world))
    (emitted (emit sample_env (with_share true o)) ready_world) = true /\
  incl (keys false) (keys true) /\
  incl (opt_in_keys o) (keys true) /\
  exists k, In k (keys true) /\ ~ In k (keys false).
Proof.
  cbv zeta.
  pose proof (share_flag_only_adds_keys sample_env
                (Crew_creation (sample_crew_data false) None) ready_world) as H.
  cbv zeta in H. destruct H as [Hno Hq].
  destruct (Hq sample_env_quiet) as [Hincl [Hall Hstrict]].
  assert (Hin : In "crew_agents"%string
                  (opt_in_keys (Crew_creation (sample_crew_data false) None)))
    by (simpl; tauto).
  split; [exact Hin|]. split; [exact (Hno _ Hin)|].
  split; [exact sample_env_quiet|]. split; [reflexivity|]. split; [reflexivity|].
  split; [exact Hincl|]. split; [exact (Hall eq_refl)|].
  exact (Hstrict eq_refl eq_refl).
Defined.

(** C6, on the code: [crew_execution_span] marks the span OK and ends it
    before it returns it, so the handle the caller gets is that of a span
    already ended; [end_crew] on the crew that holds it then attaches the
    output attributes after that end and ends the span a second time. *)
Lemma execution_span_is_ended_twice :
  let started :=
    crew_execution_span sample_env (sample_crew_data true) None ready_world in
  let ended :=
    end_crew sample_env (running_crew (Some 1)) (PStr "done") (snd started) in
  fst started = Returned (Some 1) /\
  opened_spans (trace (snd started)) = [(1, "Crew Execution"%string)] /\
  times_ended 1 (trace (snd started)) = 1 /\
  last (map fst (trace (snd started))) (GetTracer EmptyString) = EndSpan 1 /\
  keys_of 1 (emitted (end_crew sample_env (running_crew (Some 1)) (PStr "done"))
               (snd started))
  = ["crewai_version"; "crew_output"; "crew_tasks_output"]%string /\
  times_ended 1 (trace (snd ended)) = 2.
Proof. vm_compute. repeat split. Qed.




(** * Further properties of the module *)

(** X1: an object whose [ready] is false stays as it is: whatever operations
    are called on it, in any number and on any backend, nothing is sent and
    no instance attribute changes. *)
Theorem not_ready_stays_inert env ops w :
  ready (self w) = false -> run_all env ops w = w.
Proof.
  revert w; induction ops as [|op ops IH]; intros w H; simpl; [reflexivity|].
  rewrite (run_inert env op w H). simpl. now apply IH.
Qed.

Lemma not_ready_stays_inert_witness :
  ready (self inert_world) = false /\
  run_all interrupted_env
    [Set_tracer; Emit (Task_started (sample_crew true) sample_task);
     Emit (Crew_creation (sample_crew_data true) None); Set_tracer]
    inert_world = inert_world.
Proof.
  split; [reflexivity|].
  apply (not_ready_stays_inert interrupted_env). reflexivity.
Defined.

(** X2: [__init__] builds the pipeline in a fixed order (resource, provider,
    exporter, processor, registration) and stops at the first step that
    raises: the calls it made are a prefix of that sequence, only the last
    one can have failed, [ready] ends true exactly when all five went
    through, and [trace_set] ends false. *)
Theorem init_stops_at_first_failure env w :
  let evs := emitted (__init__ env) w in
  let w' := snd (__init__ env w) in
  map fst evs = firstn (List.length evs) init_calls /\
  (forall i c e, nth_error evs i = Some (c, Some e) -> S i = List.length evs) /\
  (ready (self w') = true <-> done evs = init_calls) /\
  trace_set (self w') = false.
Proof.
  cbv zeta. unfold emitted. destruct w as [[rdy ts] t].
  split; [|split; [|split]]; init_eval; try reflexivity.
  all: try (intros i c0 e0 Hn;
            repeat (destruct i as [|i]; simpl in Hn; try discriminate Hn; try reflexivity);
            destruct i; discriminate Hn).
  all: try (split; [intro H; discriminate H|]; intro H; vm_compute in H; discriminate H).
  all: try (split; reflexivity).
Qed.

Lemma init_stops_at_first_failure_witness :
  nth_error (emitted (__init__ failing_exporter_env) ready_world) 2
  = Some (MkOTLPSpanExporter "https://telemetry.crewai.com:4319/v1/traces" 30,
          Some ValueError) /\
  3 = List.length (emitted (__init__ failing_exporter_env) ready_world) /\
  done (emitted (__init__ sample_env) inert_world) = init_calls /\
  ready (self (snd (__init__ sample_env inert_world))) = true.
Proof.
  split; [reflexivity|]. split.
  - exact (proj1 (proj2 (init_stops_at_first_failure failing_exporter_env ready_world))
             2 _ ValueError eq_refl).
  - split; [reflexivity|].
    exact (proj2 (proj1 (proj2 (proj2
             (init_stops_at_first_failure sample_env inert_world)))) eq_refl).
Defined.

(** X3: the deployment spans attach [uuid] only when one is given and is
    not the empty string; with [None] or an empty string the span is still
    started, marked and ended, without that attribute.  [get_crew_logs_span]
    attaches [log_type] first in every case. *)
Theorem deployment_spans_uuid env uuid log_type w :
  backend_quiet env -> ready (self w) = true ->
  let sp := S (List.length (trace w)) in
  let uuid_attr :=
    match uuid with
    | Some u =>
        if String.eqb u EmptyString then [] else [SetAttribute sp "uuid" (PStr u)]
    | None => []
    end in
  let calls name attrs :=
    map (fun c => (c, @None exn))
      ([GetTracer "crewai.telemetry"; StartSpan sp name] ++ attrs
       ++ [SetStatusOK sp; EndSpan sp]) in
  emitted (start_deployment_span env uuid) w = calls "Start Deployment"%string uuid_attr /\
  emitted (remove_crew_span env uuid) w = calls "Remove Crew"%string uuid_attr /\
  emitted (get_crew_logs_span env uuid log_type) w
  = calls "Get Crew Logs"%string (SetAttribute sp "log_type" (PStr log_type) :: uuid_attr).
Proof.
  intros Hq Hr. cbv zeta.
  change (start_deployment_span env uuid) with (emit env (Start_deployment_span uuid)).
  change (remove_crew_span env uuid) with (emit env (Remove_crew_span uuid)).
  change (get_crew_logs_span env uuid log_type)
    with (emit env (Get_crew_logs_span uuid log_type)).
  unfold emitted. rewrite !(quiet_run _ _ _ Hq). cbn [emit].
  unfold start_deployment_span, remove_crew_span, get_crew_logs_span.
  rewrite !run_self_ready, Hr; cbv beta iota.
  destruct uuid as [u|]; cbn [truthy];
    [destruct (String.eqb u EmptyString); cbn [negb]|];
    repeat run_step; tidy_run; span_ids; repeat split; reflexivity.
Qed.

Lemma deployment_spans_uuid_witness :
  backend_quiet sample_env /\ ready (self ready_world) = true /\
  attached_keys (emitted (start_deployment_span sample_env (Some EmptyString)) ready_world)
  = [] /\
  attached_keys (emitted (get_crew_logs_span sample_env (Some "d-42"%string)
                            "deployment") ready_world)
  = ["log_type"; "uuid"]%string.
Proof.
  split; [exact sample_env_quiet|]. split; [reflexivity|].
  pose proof (deployment_spans_uuid sample_env (Some EmptyString) "deployment"
                ready_world sample_env_quiet eq_refl) as H0.
  pose proof (deployment_spans_uuid sample_env (Some "d-42"%string) "deployment"
                ready_world sample_env_quiet eq_refl) as H1.
  cbv zeta in H0, H1. destruct H0 as [H0 _]. destruct H1 as [_ [_ H1]].
  rewrite H0, H1. split; reflexivity.
Defined.

(** X4: the three tool spans carry the version of the distribution, then
    (but for the error span) the tool name and the number of attempts as
    given, then the model of the LLM when one is passed and nothing for it
    otherwise; [tool_usage] and [tool_repeated_usage] differ in the name of
    the span only. *)
Theorem tool_spans_attributes env llm tool_name attempts version w :
  backend_quiet env -> ready (self w) = true ->
  crewai_dist_version env = Returned version ->
  let sp := S (List.length (trace w)) in
  let llm_attr :=
    match llm with
    | Some l => [SetAttribute sp "llm" (model l)]
    | None => []
    end in
  let calls name attrs :=
    map (fun c => (c, @None exn))
      ([GetTracer "crewai.telemetry"; StartSpan sp name;
        SetAttribute sp "crewai_version" (PStr version)] ++ attrs ++ llm_attr
       ++ [SetStatusOK sp; EndSpan sp]) in
  let usage :=
    [SetAttribute sp "tool_name" (PStr tool_name);
     SetAttribute sp "attempts" (PInt attempts)] in
  emitted (tool_usage env llm tool_name attempts) w = calls "Tool Usage"%string usage /\
  emitted (tool_repeated_usage env llm tool_name attempts) w
  = calls "Tool Repeated Usage"%string usage /\
  emitted (tool_usage_error env llm) w = calls "Tool Usage Error"%string [].
Proof.
  intros Hq Hr Hv. cbv zeta.
  change (tool_usage env llm tool_name attempts)
    with (emit env (Tool_usage llm tool_name attempts)).
  change (tool_repeated_usage env llm tool_name attempts)
    with (emit env (Tool_repeated_usage llm tool_name attempts)).
  change (tool_usage_error env llm) with (emit env (Tool_usage_error llm)).
  unfold emitted. rewrite !(quiet_run _ _ _ Hq). cbn [emit].
  unfold tool_usage, tool_repeated_usage, tool_usage_error.
  rewrite !run_self_ready, Hr; cbv beta iota.
  destruct llm as [l|];
    repeat (repeat run_step; rewrite ?Hv; cbv beta iota);
    tidy_run; span_ids; repeat split; reflexivity.
Qed.

Lemma tool_spans_attributes_witness :
  backend_quiet sample_env /\ ready (self ready_world) = true /\
  crewai_dist_version sample_env = Returned "0.80.0"%string /\
  attached_keys (emitted (tool_usage sample_env (Some {| model := PStr "gpt-4o" |})
                            "search" 2) ready_world)
  = ["crewai_version"; "tool_name"; "attempts"; "llm"]%string /\
  attached_keys (emitted (tool_usage_error sample_env None) ready_world)
  = ["crewai_version"]%string.
Proof.
  split; [exact sample_env_quiet|]. split; [reflexivity|]. split; [reflexivity|].
  pose proof (tool_spans_attributes sample_env (Some {| model := PStr "gpt-4o" |})
                "search" 2%Z "0.80.0" ready_world sample_env_quiet eq_refl eq_refl) as H1.
  pose proof (tool_spans_attributes sample_env None "search" 2%Z "0.80.0"
                ready_world sample_env_quiet eq_refl eq_refl) as H0.
  cbv zeta in H0, H1. destruct H1 as [H1 _]. destruct H0 as [_ [_ H0]].
  rewrite H1, H0. split; reflexivity.
Defined.

(** X5: when the version of the distribution cannot be looked up (the
    lookup raises an [Exception]), every emission that records it first has
    already started its span: the call returns [None] and the span is left
    with no attribute, no status and no end. *)
Theorem version_lookup_failure_leaves_span_open env o e w :
  backend_quiet env -> ready (self w) = true ->
  version_first o = true ->
  crewai_dist_version env = Raised e -> is_Exception e = true ->
  fst (emit env o w) = Returned None /\
  exists name,
    span_names o = [name] /\
    emitted (emit env o) w
    = [(GetTracer "crewai.telemetry"%string, None);
       (StartSpan (S (List.length (trace w))) name, None)].
Proof.
  intros Hq Hr Ho Hv He.
  unfold emitted. rewrite !(quiet_run _ _ _ Hq).
  destruct o; try discriminate Ho; cbn [emit span_names version_first] in *;
    unfold_method; rewrite !run_self_ready, Hr, ?Ho; cbv beta iota; cbn [andb];
    repeat run_step; rewrite Hv; cbv beta iota; rewrite He;
    repeat run_step; tidy_run; span_ids;
    (split; [reflexivity|eexists; split; reflexivity]).
Qed.

Lemma version_lookup_failure_leaves_span_open_witness :
  backend_quiet no_dist_env /\ ready (self ready_world) = true /\
  version_first (Tool_usage None "search" 1) = true /\
  crewai_dist_version no_dist_env = Raised (OtherException "DistributionNotFound") /\
  is_Exception (OtherException "DistributionNotFound") = true /\
  fst (emit no_dist_env (Tool_usage None "search" 1) ready_world) = Returned None /\
  times_ended 1 (emitted (emit no_dist_env (Tool_usage None "search" 1)) ready_world) = 0.
Proof.
  split; [exact no_dist_env_quiet|]. do 4 (split; [reflexivity|]).
  destruct (version_lookup_failure_leaves_span_open no_dist_env
              (Tool_usage None "search" 1%Z) _ ready_world
              no_dist_env_quiet eq_refl eq_refl eq_refl eq_refl)
    as [Hr [name [_ He]]].
  split; [exact Hr|]. rewrite He. reflexivity.
Defined.

(** X6: [task_ended] on a span marks it OK and ends it, once; it attaches
    [task_output] before that only for a shared crew, with the raw output
    of the task, or the empty string when the task has no output. *)
Theorem task_ended_closes_handle env sp task crew w :
  backend_quiet env -> ready (self w) = true ->
  let text := match output task with Some o => raw o | None => EmptyString end in
  fst (task_ended env (Some sp) task crew w) = Returned None /\
  emitted (task_ended env (Some sp) task crew) w
  = map (fun c => (c, @None exn))
      ((if share_crew crew then [SetAttribute sp "task_output" (PStr text)] else [])
       ++ [SetStatusOK sp; EndSpan sp]).
Proof.
  intros Hq Hr. cbv zeta.
  change (task_ended env (Some sp) task crew)
    with (emit env (Task_ended (Some sp) task crew)).
  unfold emitted. rewrite !(quiet_run _ _ _ Hq). cbn [emit]. unfold task_ended.
  rewrite !run_self_ready, Hr; cbv beta iota.
  destruct (share_crew crew); repeat run_step; tidy_run; split; reflexivity.
Qed.

Lemma task_ended_closes_handle_witness :
  backend_quiet sample_env /\ ready (self ready_world) = true /\
  emitted (task_ended sample_env (Some 7) pending_task (sample_crew true)) ready_world
  = [(SetAttribute 7 "task_output" (PStr EmptyString), None);
     (SetStatusOK 7, None); (EndSpan 7, None)].
Proof.
  split; [exact sample_env_quiet|]. split; [reflexivity|].
  exact (proj2 (task_ended_closes_handle sample_env 7 pending_task (sample_crew true)
                  ready_world sample_env_quiet eq_refl)).
Defined.

(** X7: [task_started] called twice and [task_ended] called once, on the
    second handle: the two handles differ, the second span has been ended
    once and the first has not been ended. *)
Theorem started_twice_ended_once env crew task w :
  backend_quiet env -> ready (self w) = true ->
  let first := task_started env crew task w in
  let second := task_started env crew task (snd first) in
  exists h1 h2,
    fst first = Returned (Some h1) /\ fst second = Returned (Some h2) /\
    h1 <> h2 /\
    let w3 := snd (task_ended env (Some h2) task crew (snd second)) in
    let evs := skipn (List.length (trace w)) (trace w3) in
    times_ended h2 evs = 1 /\ times_ended h1 evs = 0.
Proof.
  intros Hq Hr. cbv zeta.
  destruct (task_started_quiet env crew task w Hq Hr) as [h1 [evs1 [E1 [R1 N1]]]].
  rewrite E1. cbn [fst snd].
  destruct (task_started_quiet env crew task
              {| self := self w; trace := trace w ++ evs1 |} Hq Hr)
    as [h2 [evs2 [E2 [R2 N2]]]].
  rewrite E2. cbn [fst snd self trace] in *.
  exists h1, h2. split; [reflexivity|]. split; [reflexivity|]. split; [lia|].
  destruct (task_ended_quiet env h2 task crew
              {| self := self w; trace := (trace w ++ evs1) ++ evs2 |} Hq Hr)
    as [evs3 [E3 N3]].
  rewrite E3. cbn [snd trace].
  rewrite <- !app_assoc, skipn_length_app, !times_ended_app, !N3.
  rewrite Nat.eqb_refl.
  replace (Nat.eqb h1 h2) with false by (symmetry; apply Nat.eqb_neq; lia).
  rewrite (N1 h2) by lia. rewrite (N2 h2) by lia.
  rewrite (N1 h1) by lia. rewrite (N2 h1) by lia. split; reflexivity.
Qed.

Lemma started_twice_ended_once_witness :
  backend_quiet sample_env /\ ready (self ready_world) = true /\
  exists h1 h2,
    fst (task_started sample_env (sample_crew false) sample_task ready_world)
    = Returned (Some h1) /\
    fst (task_started sample_env (sample_crew false) sample_task
           (snd (task_started sample_env (sample_crew false) sample_task ready_world)))
    = Returned (Some h2) /\
    h1 <> h2.
Proof.
  split; [exact sample_env_quiet|]. split; [reflexivity|].
  destruct (started_twice_ended_once sample_env (sample_crew false) sample_task
              ready_world sample_env_quiet eq_refl) as [h1 [h2 [H1 [H2 [Hne _]]]]].
  exists h1, h2. split; [exact H1|]. split; [exact H2|exact Hne].
Defined.

(** X8: [end_crew] reads [task.output.raw_output] of every task with no
    test for a missing output: when some task of the crew has none, the
    version and [crew_output] are attached, then the emission stops; the
    call returns [None] and the span is neither marked nor ended. *)
Theorem end_crew_task_without_output env crew final_string_output sp version w :
  backend_quiet env -> ready (self w) = true ->
  share_crew crew = true -> _execution_span crew = Some sp ->
  crewai_dist_version env = Returned version ->
  (exists task, In task (tasks crew) /\ output task = None) ->
  fst (end_crew env crew final_string_output w) = Returned None /\
  emitted (end_crew env crew final_string_output) w
  = [(SetAttribute sp "crewai_version" (PStr version), None);
     (SetAttribute sp "crew_output" final_string_output, None)].
Proof.
  intros Hq Hr Hs Hsp Hv Hmiss.
  change (end_crew env crew final_string_output)
    with (emit env (End_crew crew final_string_output)).
  unfold emitted. rewrite !(quiet_run _ _ _ Hq). cbn [emit]. unfold end_crew.
  rewrite !run_self_ready, Hr, Hs, Hsp, (tasks_output_missing _ Hmiss).
  cbv beta iota; cbn [andb].
  repeat run_step. rewrite Hv. cbv beta iota. repeat run_step.
  cbn [is_Exception]. tidy_run. split; reflexivity.
Qed.

Lemma end_crew_task_without_output_witness :
  backend_quiet sample_env /\ ready (self ready_world) = true /\
  share_crew (pending_crew (Some 1)) = true /\
  _execution_span (pending_crew (Some 1)) = Some 1 /\
  crewai_dist_version sample_env = Returned "0.80.0"%string /\
  (exists task, In task (tasks (pending_crew (Some 1))) /\ output task = None) /\
  times_ended 1 (emitted (end_crew sample_env (pending_crew (Some 1)) (PStr "done"))
                   ready_world) = 0.
Proof.
  assert (Hm : exists task, In task (tasks (pending_crew (Some 1))) /\ output task = None)
    by (exists pending_task; split; [simpl; tauto|reflexivity]).
  split; [exact sample_env_quiet|]. do 4 (split; [reflexivity|]).
  split; [exact Hm|].
  rewrite (proj2 (end_crew_task_without_output sample_env (pending_crew (Some 1))
                    (PStr "done") 1 "0.80.0" ready_world sample_env_quiet
                    eq_refl eq_refl eq_refl eq_refl Hm)).
  reflexivity.
Defined.

(** X9: when every task has an output and the list serializes, [end_crew]
    attaches the version, [crew_output] and [crew_tasks_output] (one entry
    per task of the crew) to the span the crew holds, marks it OK and ends
    it; it starts no span of its own. *)
Theorem end_crew_closes_span env crew final_string_output sp version outputs s w :
  backend_quiet env -> ready (self w) = true ->
  share_crew crew = true -> _execution_span crew = Some sp ->
  crewai_dist_version env = Returned version ->
  tasks_output (tasks crew) = Returned outputs ->
  json_dumps env (PList outputs) = Returned s ->
  List.length outputs = List.length (tasks crew) /\
  emitted (end_crew env crew final_string_output) w
  = map (fun c => (c, @None exn))
      [SetAttribute sp "crewai_version" (PStr version);
       SetAttribute sp "crew_output" final_string_output;
       SetAttribute sp "crew_tasks_output" (PStr s);
       SetStatusOK sp; EndSpan sp].
Proof.
  intros Hq Hr Hs Hsp Hv Ho Hd.
  split; [now apply tasks_output_length|].
  change (end_crew env crew final_string_output)
    with (emit env (End_crew crew final_string_output)).
  unfold emitted. rewrite !(quiet_run _ _ _ Hq). cbn [emit]. unfold end_crew.
  rewrite !run_self_ready, Hr, Hs, Hsp, Ho.
  cbv beta iota; cbn [andb].
  repeat run_step. rewrite Hv. cbv beta iota. repeat run_step.
  rewrite Hd. cbv beta iota. repeat run_step. tidy_run. reflexivity.
Qed.

Lemma end_crew_closes_span_witness :
  backend_quiet sample_env /\ ready (self ready_world) = true /\
  share_crew (running_crew (Some 1)) = true /\
  _execution_span (running_crew (Some 1)) = Some 1 /\
  crewai_dist_version sample_env = Returned "0.80.0"%string /\
  (exists outputs s,
     tasks_output (tasks (running_crew (Some 1))) = Returned outputs /\
     json_dumps sample_env (PList outputs) = Returned s /\
     List.length outputs = 1) /\
  attached_keys (emitted (end_crew sample_env (running_crew (Some 1)) (PStr "done"))
                   ready_world)
  = ["crewai_version"; "crew_output"; "crew_tasks_output"]%string.
Proof.
  split; [exact sample_env_quiet|]. do 4 (split; [reflexivity|]).
  pose proof (end_crew_closes_span sample_env (running_crew (Some 1)) (PStr "done")
                1 "0.80.0" _ _ ready_world sample_env_quiet
                eq_refl eq_refl eq_refl eq_refl eq_refl eq_refl) as [Hn He].
  split.
  - eexists; eexists. split; [reflexivity|]. split; [reflexivity|exact Hn].
  - rewrite He. reflexivity.
Defined.

(** X10: [end_crew] on a crew that holds no execution span calls the
    backend not at all, whatever the backend and the crew: the three
    attachments on [None] are dropped and the status call on [None] aborts
    the emission; in an ordinary environment the call returns [None]. *)
Theorem end_crew_without_span env crew final_string_output w :
  _execution_span crew = None ->
  snd (end_crew env crew final_string_output w) = w /\
  (ordinary env -> fst (end_crew env crew final_string_output w) = Returned None).
Proof.
  intro Hsp. unfold end_crew. rewrite Hsp.
  rewrite !run_self_ready.
  destruct (ready (self w) && share_crew crew); [|split; reflexivity].
  unfold try_except, bind, dist_version, dumps, lift, ret, _add_attribute,
    try_except, set_attribute, set_status_ok, raise; simpl.
  destruct (crewai_dist_version env) as [e|v] eqn:Hv; simpl.
  - destruct (is_Exception e) eqn:He; simpl; split; auto.
    intros [_ [_ Ho]]. rewrite (Ho e Hv) in He. discriminate He.
  - destruct (tasks_output (tasks crew)) as [e|l] eqn:Ht; simpl.
    + rewrite (tasks_output_raises _ _ Ht). simpl. split; auto.
    + destruct (json_dumps env (PList l)) as [e|s] eqn:Hj; simpl.
      * destruct (is_Exception e) eqn:He; simpl; split; auto.
        intros [_ [Ho _]]. rewrite (Ho _ e Hj) in He. discriminate He.
      * split; auto.
Qed.

Lemma end_crew_without_span_witness :
  _execution_span (running_crew None) = None /\
  snd (end_crew interrupted_env (running_crew None) (PStr "done") ready_world)
  = ready_world /\
  ordinary sample_env /\
  fst (end_crew sample_env (running_crew None) (PStr "done") ready_world) = Returned None.
Proof.
  split; [reflexivity|]. split.
  - exact (proj1 (end_crew_without_span interrupted_env (running_crew None)
                    (PStr "done") ready_world eq_refl)).
  - split; [exact sample_env_ordinary|].
    exact (proj2 (end_crew_without_span sample_env (running_crew None)
                    (PStr "done") ready_world eq_refl) sample_env_ordinary).
Defined.

(** X11: [crew_creation] on a crew that is not shared sends the span "Crew
    Created" with eight attributes, in this order: the version, the Python
    version, the key, the id, the process and the memory as found in the
    dictionary ([None] for a missing key), and the numbers of tasks and of
    agents; nothing of the agents, the tasks, the platform or the inputs. *)
Theorem crew_creation_unshared env crew_data inputs n_tasks n_agents w :
  backend_quiet env -> ready (self w) = true ->
  truthy (dict_get crew_data "share_crew") = false ->
  py_len (dict_get_default crew_data "tasks" (PList [])) = Returned n_tasks ->
  py_len (dict_get_default crew_data "agents" (PList [])) = Returned n_agents ->
  let sp := S (List.length (trace w)) in
  emitted (crew_creation env crew_data inputs) w
  = map (fun c => (c, @None exn))
      [GetTracer "crewai.telemetry"; StartSpan sp "Crew Created";
       SetAttribute sp "crewai_version" (dict_get crew_data "crewai_version");
       SetAttribute sp "python_version" (PStr (python_version env));
       SetAttribute sp "crew_key" (dict_get crew_data "key");
       SetAttribute sp "crew_id" (dict_get crew_data "id");
       SetAttribute sp "crew_process" (dict_get crew_data "process");
       SetAttribute sp "crew_memory" (dict_get crew_data "memory");
       SetAttribute sp "crew_number_of_tasks" (PInt n_tasks);
       SetAttribute sp "crew_number_of_agents" (PInt n_agents);
       SetStatusOK sp; EndSpan sp].
Proof.
  intros Hq Hr Hs Ht Ha. cbv zeta.
  change (crew_creation env crew_data inputs)
    with (emit env (Crew_creation crew_data inputs)).
  unfold emitted. rewrite !(quiet_run _ _ _ Hq). cbn [emit]. unfold crew_creation.
  rewrite !run_self_ready, Hr, Hs; cbv beta iota.
  repeat (repeat run_step; rewrite ?Ht, ?Ha; cbv beta iota).
  tidy_run; span_ids. reflexivity.
Qed.

Lemma crew_creation_unshared_witness :
  backend_quiet sample_env /\ ready (self ready_world) = true /\
  truthy (dict_get (sample_crew_data false) "share_crew") = false /\
  py_len (dict_get_default (sample_crew_data false) "tasks" (PList [])) = Returned 2%Z /\
  py_len (dict_get_default (sample_crew_data false) "agents" (PList [])) = Returned 1%Z /\
  attached_keys (emitted (crew_creation sample_env (sample_crew_data false) None)
                   ready_world)
  = ["crewai_version"; "python_version"; "crew_key"; "crew_id"; "crew_process";
     "crew_memory"; "crew_number_of_tasks"; "crew_number_of_agents"]%string.
Proof.
  split; [exact sample_env_quiet|]. do 4 (split; [reflexivity|]).
  pose proof (crew_creation_unshared sample_env (sample_crew_data false) None 2 1
                ready_world sample_env_quiet eq_refl eq_refl eq_refl eq_refl) as H.
  cbv zeta in H. rewrite H. reflexivity.
Defined.

(** X12: a dictionary with no [tasks] and no [agents] entry counts as zero
    tasks and zero agents ([get] falls back on the empty list), and with no
    [share_crew] entry the crew is not shared. *)
Theorem crew_creation_missing_counts env crew_data inputs w :
  backend_quiet env -> ready (self w) = true ->
  ~ In "tasks"%string (map fst crew_data) ->
  ~ In "agents"%string (map fst crew_data) ->
  ~ In "share_crew"%string (map fst crew_data) ->
  let evs := emitted (crew_creation env crew_data inputs) w in
  let sp := S (List.length (trace w)) in
  In (SetAttribute sp "crew_number_of_tasks" (PInt 0), None) evs /\
  In (SetAttribute sp "crew_number_of_agents" (PInt 0), None) evs /\
  List.length (attached_keys evs) = 8 /\
  times_ended sp evs = 1.
Proof.
  intros Hq Hr Ht Ha Hs. cbv zeta.
  change (crew_creation env crew_data inputs)
    with (emit env (Crew_creation crew_data inputs)).
  unfold emitted. rewrite !(quiet_run _ _ _ Hq). cbn [emit]. unfold crew_creation.
  replace (dict_get crew_data "share_crew") with PNone
    by (symmetry; apply dict_get_default_missing; exact Hs).
  rewrite !run_self_ready, Hr, (dict_get_default_missing _ _ _ Ht),
    (dict_get_default_missing _ _ _ Ha).
  cbv beta iota. cbn [py_len truthy List.length Z.of_nat].
  repeat run_step. tidy_run; span_ids.
  unfold times_ended, done. cbn [filter map snd fst List.length attached_keys flat_map app].
  rewrite Nat.eqb_refl. cbn [filter map List.length In].
  repeat split; auto 20.
Qed.

Lemma crew_creation_missing_counts_witness :
  backend_quiet sample_env /\ ready (self ready_world) = true /\
  In (SetAttribute 1 "crew_number_of_tasks" (PInt 0), None)
     (emitted (crew_creation sample_env [("key", PStr "c-key")] None) ready_world).
Proof.
  split; [exact sample_env_quiet|]. split; [reflexivity|].
  refine (proj1 (crew_creation_missing_counts sample_env [("key", PStr "c-key")] None
                   ready_world sample_env_quiet eq_refl _ _ _));
    simpl; intros [H|[]]; discriminate H.
Defined.

(** X13: when the [tasks] entry of the dictionary has no length (it is
    [None], say), [len] raises while the count is computed: the six
    attributes before it are attached, the call returns [None], and the
    span is neither marked nor ended, shared crew or not. *)
Theorem crew_creation_unsized_tasks env crew_data inputs e w :
  backend_quiet env -> ready (self w) = true ->
  py_len (dict_get_default crew_data "tasks" (PList [])) = Raised e ->
  let sp := S (List.length (trace w)) in
  fst (crew_creation env crew_data inputs w) = Returned None /\
  emitted (crew_creation env crew_data inputs) w
  = map (fun c => (c, @None exn))
      [GetTracer "crewai.telemetry"; StartSpan sp "Crew Created";
       SetAttribute sp "crewai_version" (dict_get crew_data "crewai_version");
       SetAttribute sp "python_version" (PStr (python_version env));
       SetAttribute sp "crew_key" (dict_get crew_data "key");
       SetAttribute sp "crew_id" (dict_get crew_data "id");
       SetAttribute sp "crew_process" (dict_get crew_data "process");
       SetAttribute sp "crew_memory" (dict_get crew_data "memory")].
Proof.
  intros Hq Hr Ht. cbv zeta.
  assert (He : is_Exception e = true).
  { destruct (dict_get_default crew_data "tasks" (PList [])); simpl in Ht;
      inversion Ht; reflexivity. }
  change (crew_creation env crew_data inputs)
    with (emit env (Crew_creation crew_data inputs)).
  unfold emitted. rewrite !(quiet_run _ _ _ Hq). cbn [emit]. unfold crew_creation.
  rewrite !run_self_ready, Hr; cbv beta iota.
  repeat (repeat run_step; rewrite ?Ht, ?He; cbv beta iota).
  tidy_run; span_ids. split; reflexivity.
Qed.

Lemma crew_creation_unsized_tasks_witness :
  backend_quiet sample_env /\ ready (self ready_world) = true /\
  py_len (dict_get_default unsized_crew_data "tasks" (PList [])) = Raised TypeError /\
  fst (crew_creation sample_env unsized_crew_data None ready_world) = Returned None /\
  times_ended 1 (emitted (crew_creation sample_env unsized_crew_data None) ready_world)
  = 0.
Proof.
  split; [exact sample_env_quiet|]. do 2 (split; [reflexivity|]).
  pose proof (crew_creation_unsized_tasks sample_env unsized_crew_data None TypeError
                ready_world sample_env_quiet eq_refl eq_refl) as H.
  cbv zeta in H. destruct H as [Hr He]. split; [exact Hr|]. rewrite He. reflexivity.
Defined.

(** X14: the test spans send their numbers as text: [quality],
    [exec_time] and [iterations] are attached as the strings [str] gives.
    [test_execution_span] attaches [inputs] only for a shared crew: the
    serialized dictionary, or [None] when no inputs or an empty dictionary
    is given. *)
Theorem test_spans_attributes env crew quality exec_time iterations inputs
    model_name version s w :
  backend_quiet env -> ready (self w) = true ->
  crewai_dist_version env = Returned version ->
  (forall d, inputs = Some d -> truthy (PDict d) = true ->
             json_dumps env (PDict d) = Returned s) ->
  let sp := S (List.length (trace w)) in
  let head name :=
    [GetTracer "crewai.telemetry"; StartSpan sp name;
     SetAttribute sp "crewai_version" (PStr version);
     SetAttribute sp "crew_key" (PStr (crew_key crew));
     SetAttribute sp "crew_id" (PStr (crew_id crew))] in
  let value :=
    match inputs with
    | Some d => if truthy (PDict d) then PStr s else PNone
    | None => PNone
    end in
  emitted (individual_test_result_span env crew quality exec_time model_name) w
  = map (fun c => (c, @None exn))
      (head "Crew Individual Test Result"%string
       ++ [SetAttribute sp "quality" (PStr (float_str quality));
           SetAttribute sp "exec_time" (PStr (str_int exec_time));
           SetAttribute sp "model_name" (PStr model_name);
           SetStatusOK sp; EndSpan sp]) /\
  emitted (test_execution_span env crew iterations inputs model_name) w
  = map (fun c => (c, @None exn))
      (head "Crew Test Execution"%string
       ++ [SetAttribute sp "iterations" (PStr (str_int iterations));
           SetAttribute sp "model_name" (PStr model_name)]
       ++ (if share_crew crew then [SetAttribute sp "inputs" value] else [])
       ++ [SetStatusOK sp; EndSpan sp]).
Proof.
  intros Hq Hr Hv Hj. cbv zeta.
  change (individual_test_result_span env crew quality exec_time model_name)
    with (emit env (Individual_test_result_span crew quality exec_time model_name)).
  change (test_execution_span env crew iterations inputs model_name)
    with (emit env (Test_execution_span crew iterations inputs model_name)).
  unfold emitted. rewrite !(quiet_run _ _ _ Hq). cbn [emit].
  unfold individual_test_result_span, test_execution_span.
  rewrite !run_self_ready, Hr; cbv beta iota.
  split.
  - repeat (repeat run_step; rewrite ?Hv; cbv beta iota).
    tidy_run; span_ids. reflexivity.
  - destruct inputs as [d|].
    + destruct (truthy (PDict d)) eqn:Hd.
      * pose proof (Hj d eq_refl Hd) as Hs.
        destruct (share_crew crew);
          repeat (repeat run_step; rewrite ?Hv, ?Hd, ?Hs; cbv beta iota);
          tidy_run; span_ids; reflexivity.
      * destruct (share_crew crew);
          repeat (repeat run_step; rewrite ?Hv, ?Hd; cbv beta iota);
          tidy_run; span_ids; reflexivity.
    + destruct (share_crew crew);
        repeat (repeat run_step; rewrite ?Hv; cbv beta iota);
        tidy_run; span_ids; reflexivity.
Qed.

Lemma test_spans_attributes_witness :
  backend_quiet sample_env /\ ready (self ready_world) = true /\
  crewai_dist_version sample_env = Returned "0.80.0"%string /\
  In (SetAttribute 1 "inputs" PNone, None)
     (emitted (test_execution_span sample_env (sample_crew true) 3 (Some []) "gpt-4o")
        ready_world) /\
  In (SetAttribute 1 "exec_time" (PStr "42"), None)
     (emitted (individual_test_result_span sample_env (sample_crew false)
                 {| float_str := "9.5" |} 42 "gpt-4o") ready_world).
Proof.
  split; [exact sample_env_quiet|]. do 2 (split; [reflexivity|]).
  assert (Hj : forall d : dict, Some (@nil (string * pyval)) = Some d ->
                 truthy (PDict d) = true ->
                 json_dumps sample_env (PDict d) = Returned EmptyString).
  { intros d Hd Ht. inversion Hd; subst. discriminate Ht. }
  pose proof (test_spans_attributes sample_env (sample_crew true) {| float_str := "9.5" |}
                42 3 (Some []) "gpt-4o" "0.80.0" EmptyString ready_world
                sample_env_quiet eq_refl eq_refl Hj) as H1.
  pose proof (test_spans_attributes sample_env (sample_crew false) {| float_str := "9.5" |}
                42 3 (Some []) "gpt-4o" "0.80.0" EmptyString ready_world
                sample_env_quiet eq_refl eq_refl Hj) as H2.
  cbv zeta in H1, H2. destruct H1 as [_ H1]. destruct H2 as [H2 _].
  rewrite H1, H2. split; simpl; tauto.
Defined.

(** X15: an emission operation calls the backend for nothing but the
    tracer named "crewai.telemetry" and for spans (start, attribute,
    status, end): it never builds a resource, a provider, an exporter or a
    processor, and never installs the provider, on any backend and from any
    state. *)
Theorem emission_stays_at_span_level env o w :
  forallb (fun ev => span_level (fst ev)) (emitted (emit env o) w) = true.
Proof.
  destruct (span_level_emit env o w) as [evs [Ht Hf]].
  now rewrite (emitted_app _ _ _ Ht).
Qed.

(** X16: over any sequence of operations, on any backend, the tracer
    provider is installed at most once; it is never installed on an object
    that is not ready or whose tracer is already set. *)
Theorem provider_installed_at_most_once env ops w :
  let evs := skipn (List.length (trace w)) (trace (run_all env ops w)) in
  installed evs <= 1 /\
  (ready (self w) = false \/ trace_set (self w) = true -> installed evs = 0).
Proof.
  cbv zeta. destruct (run_all_installs env ops w) as [evs [Ht Hb]].
  rewrite Ht, skipn_length_app. split.
  - destruct (ready (self w) && negb (trace_set (self w))); lia.
  - intros [H|H]; rewrite H in Hb; simpl in Hb;
      rewrite ?andb_false_r in Hb; simpl in Hb; lia.
Qed.

Lemma provider_installed_at_most_once_witness :
  trace_set (self (snd (set_tracer sample_env ready_world))) = true /\
  installed
    (skipn (List.length (trace (snd (set_tracer sample_env ready_world))))
       (trace (run_all sample_env
                 [Set_tracer; Emit (Tool_usage None "search" 1); Set_tracer]
                 (snd (set_tracer sample_env ready_world))))) = 0.
Proof.
  split; [reflexivity|].
  apply (proj2 (provider_installed_at_most_once sample_env
                  [Set_tracer; Emit (Tool_usage None "search" 1%Z); Set_tracer]
                  (snd (set_tracer sample_env ready_world)))).
  right. reflexivity.
Defined.

(** X17: [crew_creation] on a shared crew sends, after the eight
    attributes of every crew, the serialized agents and tasks, the four
    platform strings, the number of CPUs ([None] when unknown) and the
    inputs (serialized, or [None] when there are none), in this order, then
    marks and ends the span. *)
Theorem crew_creation_shared env crew_data inputs n_tasks n_agents agents tasks s w :
  backend_quiet env -> ready (self w) = true ->
  truthy (dict_get crew_data "share_crew") = true ->
  py_len (dict_get_default crew_data "tasks" (PList [])) = Returned n_tasks ->
  py_len (dict_get_default crew_data "agents" (PList [])) = Returned n_agents ->
  json_dumps env (dict_get_default crew_data "agents" (PList [])) = Returned agents ->
  json_dumps env (dict_get_default crew_data "tasks" (PList [])) = Returned tasks ->
  (forall d, inputs = Some d -> truthy (PDict d) = true ->
             json_dumps env (PDict d) = Returned s) ->
  let sp := S (List.length (trace w)) in
  let crew_inputs :=
    match inputs with
    | Some d => if truthy (PDict d) then PStr s else PNone
    | None => PNone
    end in
  emitted (crew_creation env crew_data inputs) w
  = map (fun c => (c, @None exn))
      [GetTracer "crewai.telemetry"; StartSpan sp "Crew Created";
       SetAttribute sp "crewai_version" (dict_get crew_data "crewai_version");
       SetAttribute sp "python_version" (PStr (python_version env));
       SetAttribute sp "crew_key" (dict_get crew_data "key");
       SetAttribute sp "crew_id" (dict_get crew_data "id");
       SetAttribute sp "crew_process" (dict_get crew_data "process");
       SetAttribute sp "crew_memory" (dict_get crew_data "memory");
       SetAttribute sp "crew_number_of_tasks" (PInt n_tasks);
       SetAttribute sp "crew_number_of_agents" (PInt n_agents);
       SetAttribute sp "crew_agents" (PStr agents);
       SetAttribute sp "crew_tasks" (PStr tasks);
       SetAttribute sp "platform" (PStr (platform_platform env));
       SetAttribute sp "platform_release" (PStr (platform_release env));
       SetAttribute sp "platform_system" (PStr (platform_system env));
       SetAttribute sp "platform_version" (PStr (platform_version env));
       SetAttribute sp "cpus"
         (match cpu_count env with Some n => PInt n | None => PNone end);
       SetAttribute sp "crew_inputs" crew_inputs;
       SetStatusOK sp; EndSpan sp].
Proof.
  intros Hq Hr Hs Ht Ha Hja Hjt Hj. cbv zeta.
  change (crew_creation env crew_data inputs)
    with (emit env (Crew_creation crew_data inputs)).
  unfold emitted. rewrite !(quiet_run _ _ _ Hq). cbn [emit]. unfold crew_creation.
  cbn [quiet python_version platform_platform platform_release platform_system
       platform_version cpu_count].
  set (cpus := match cpu_count env with Some n => PInt n | None => PNone end).
  rewrite !run_self_ready, Hr, Hs; cbv beta iota.
  destruct inputs as [d|]; [destruct (truthy (PDict d)) eqn:Hd|];
    try (pose proof (Hj d eq_refl Hd) as Hjd);
    repeat (repeat run_step; rewrite ?Ht, ?Ha, ?Hja, ?Hjt, ?Hd, ?Hjd; cbv beta iota);
    tidy_run; span_ids; reflexivity.
Qed.

Lemma crew_creation_shared_witness :
  backend_quiet sample_env /\ ready (self ready_world) = true /\
  truthy (dict_get (sample_crew_data true) "share_crew") = true /\
  List.length
    (attached_keys (emitted (crew_creation sample_env (sample_crew_data true) None)
                      ready_world)) = 16 /\
  In (SetAttribute 1 "crew_inputs" PNone, None)
     (emitted (crew_creation sample_env (sample_crew_data true) None) ready_world).
Proof.
  split; [exact sample_env_quiet|]. do 2 (split; [reflexivity|]).
  assert (Hj : forall d : dict, @None dict = Some d -> truthy (PDict d) = true ->
                 json_dumps sample_env (PDict d) = Returned EmptyString)
    by (intros d Hd; discriminate Hd).
  pose proof (crew_creation_shared sample_env (sample_crew_data true) (@None dict) 2 1 _ _
                EmptyString ready_world sample_env_quiet eq_refl eq_refl eq_refl
                eq_refl eq_refl eq_refl Hj) as H.
  cbv zeta in H. rewrite H. split; [reflexivity|simpl; tauto].
Defined.
